(** * Hospital dashboard: the census engine, the KPIs and the query layer

    A shallow embedding of [app_streamlit.py].  Data frames are lists of
    typed rows, kept in the row order pandas produces; a float64 cell is an
    exact rational or one of the IEEE specials (rounding is not modelled);
    a datetime64 cell is an optional count of nanoseconds since the epoch,
    [None] being [NaT]; a calendar date is a day number. *)

From Stdlib Require Import ZArith QArith Lia.
From stdpp Require Import base option list sorting strings gmap.

Open Scope string_scope.
Open Scope Z_scope.

(** ** float64 cells *)

Inductive float64 : Type :=
  | NaN
  | PInf
  | NInf
  | Fin (q : Q).

Module F.

Definition of_int (z : Z) : float64 := Fin (inject_Z z).

(** The missing cell of a float column produced by a left merge. *)
Definition of_cell (c : option Z) : float64 :=
  match c with Some z => of_int z | None => NaN end.

Definition is_nan (x : float64) : bool :=
  match x with NaN => true | _ => false end.

Definition inf (negative : bool) : float64 := if negative then NInf else PInf.

(** -1, 0 or 1 for the sign of a rational. *)
Definition qsgn (q : Q) : Z := Z.sgn (Qnum q).

(** numpy's [true_divide] under [errstate(all="ignore")]: x/0 is an
    infinity of the sign of x, 0/0 is NaN, nothing raises. *)
Definition div (x y : float64) : float64 :=
  match x, y with
  | NaN, _ | _, NaN => NaN
  | Fin a, Fin b =>
      if qsgn b =? 0
      then (if qsgn a =? 0 then NaN else inf (qsgn a <? 0))
      else Fin (Qred (a / b))
  | Fin _, (PInf | NInf) => Fin 0
  | (PInf | NInf), (PInf | NInf) => NaN
  | PInf, Fin b => inf (qsgn b <? 0)
  | NInf, Fin b => inf (0 <=? qsgn b)
  end.

Definition mul (x y : float64) : float64 :=
  match x, y with
  | NaN, _ | _, NaN => NaN
  | Fin a, Fin b => Fin (Qred (a * b))
  | Fin a, PInf | PInf, Fin a =>
      if qsgn a =? 0 then NaN else inf (qsgn a <? 0)
  | Fin a, NInf | NInf, Fin a =>
      if qsgn a =? 0 then NaN else inf (0 <? qsgn a)
  | PInf, PInf | NInf, NInf => PInf
  | PInf, NInf | NInf, PInf => NInf
  end.

(** [x <= y] on floats; every comparison with NaN is false. *)
Definition leb (x y : float64) : bool :=
  match x, y with
  | NaN, _ | _, NaN => false
  | NInf, _ | _, PInf => true
  | _, NInf | PInf, _ => false
  | Fin a, Fin b => Qle_bool a b
  end.

(** [Series.clip(upper=u)]: [where(isna | (self <= u), u)]. *)
Definition clip_upper (u : float64) (x : float64) : float64 :=
  if is_nan x || leb x u then x else u.

(** [Series.mean()] of an integer column: sum over count; the mean of no
    value at all is NaN. *)
Definition mean_int (l : list Z) : float64 :=
  div (of_int (foldr Z.add 0 l)) (of_int (Z.of_nat (length l))).

End F.

(** ** The data model *)

(** Modelled from the spec: the [admissions] table is declared in
    schema.sql, which is not part of the sources; the columns are those the
    page reads, [hospital] and [unit_id] are the categorical identifiers of
    section 3, present in every row.  [T] is the type of a timestamp cell:
    text as stored, datetime64 once [load_admissions] has parsed it. *)
Record Admission (T : Type) : Type := mkAdmission {
  encounter_id : string;
  patient_id : string;
  hospital : string;
  unit_id : string;
  triage_level : option Z;
  admit_ts : T;
  discharge_ts : T;
  wait_minutes : option Z
}.
Arguments mkAdmission {T}.
Arguments encounter_id {T}.
Arguments patient_id {T}.
Arguments hospital {T}.
Arguments unit_id {T}.
Arguments triage_level {T}.
Arguments admit_ts {T}.
Arguments discharge_ts {T}.
Arguments wait_minutes {T}.

(** A datetime64[ns] cell; [None] is NaT. *)
Definition datetime64 : Type := option Z.
(** An object cell holding a [datetime.date] (a day number) or NaT. *)
Definition date_cell : Type := option Z.

Abbreviation Encounter := (Admission datetime64).
Abbreviation StoredAdmission := (Admission (option string)).

(** Modelled from the spec: the [bed_capacity] table is declared in
    schema.sql, which is not part of the sources; section 3 of the spec gives
    one record per (hospital, unit) pair with an integer bed count. *)
Record CapacityRecord : Type := mkCapacity {
  cap_hospital : string;
  cap_unit_id : string;
  baseline_staffed_beds : Z
}.

Definition key : Type := string * string.

Definition enc_key {T} (e : Admission T) : key := (hospital e, unit_id e).
Definition cap_key (c : CapacityRecord) : key := (cap_hospital c, cap_unit_id c).

(** Modelled from the spec: the invariants section 3 gives for the capacity
    reference: at most one record per pair, no negative bed count. *)
Definition capacity_unique (beds_ref : list CapacityRecord) : Prop :=
  NoDup (cap_key <$> beds_ref).
Definition capacity_nonneg (beds_ref : list CapacityRecord) : Prop :=
  Forall (λ c, 0 <= baseline_staffed_beds c) beds_ref.

(** A row of the [census] frame built from the list of dicts. *)
Record CensusRow : Type := mkCensus {
  c_hospital : string;
  c_unit_id : string;
  c_date : Z;
  c_census : Z
}.

(** A row of [left.merge(beds_ref, how="left")]; the bed count of a row
    without a match is the missing cell. *)
Record Merged (A : Type) : Type := mkMerged {
  m_row : A;
  m_baseline : option Z
}.
Arguments mkMerged {A}.
Arguments m_row {A}.
Arguments m_baseline {A}.

Record DailyOccupancyPoint : Type := mkPoint {
  p_hospital : string;
  p_unit_id : string;
  p_date : Z;
  census : Z;
  staffed_beds : Z;
  occ_pct : float64
}.

Definition point_key (p : DailyOccupancyPoint) : key := (p_hospital p, p_unit_id p).

(** What a call returns: a value or a raised exception.  [NameError]
    stands for the use of a reference to no object, which the heap model
    allows and Python does not. *)
Inductive exn : Type :=
  | KeyError (label : string)
  | NameError.

Inductive result (A : Type) : Type :=
  | Ok (a : A)
  | Raise (e : exn).
Arguments Ok {A}.
Arguments Raise {A}.

(** ** Dates *)

Definition NS_PER_DAY : Z := 86400000000000.

(** [Series.dt.date]: the calendar day of a timestamp, NaT for NaT. *)
Definition dt_date (ts : datetime64) : date_cell := (λ t, t `div` NS_PER_DAY) <$> ts.

Definition admit_d (e : Encounter) : date_cell := dt_date (admit_ts e).
Definition discharge_d (e : Encounter) : date_cell := dt_date (discharge_ts e).

(** [pd.date_range(start, end, freq="D").date] for two calendar dates:
    every day from [date_start] to [date_end], none when they are reversed. *)
Definition date_range (date_start date_end : Z) : list Z :=
  (λ i : nat, date_start + Z.of_nat i) <$> seq 0 (Z.to_nat (date_end - date_start + 1)).

(** Comparison of an object column with a date: a null cell yields False. *)
Definition cell_le (c : date_cell) (d : Z) : bool :=
  match c with Some a => a <=? d | None => false end.
Definition cell_gt (c : date_cell) (d : Z) : bool :=
  match c with Some a => d <? a | None => false end.

(** ** Grouping *)

(** Tuples of strings compare lexicographically, as Python orders them. *)
Definition key_leb (k1 k2 : key) : bool :=
  match String.compare k1.1 k2.1 with
  | Lt => true
  | Eq => String.leb k1.2 k2.2
  | Gt => false
  end.
Definition key_le : relation key := λ k1 k2, key_leb k1 k2.

#[global] Instance key_le_dec : RelDecision key_le.
Proof. intros k1 k2. unfold key_le. apply _. Defined.

(** The keys [df.groupby(["hospital", "unit_id"])] iterates over: each
    distinct pair once, in sorted order. *)
Definition group_keys {T} (df : list (Admission T)) : list key :=
  merge_sort key_le (remove_dups (enc_key <$> df)).

Definition in_group {T} (k : key) (e : Admission T) : bool := bool_decide (enc_key e = k).

(** The rows of a group, in the order of the frame. *)
Definition group_of (k : key) (df : list Encounter) : list Encounter :=
  filter (λ e, in_group k e = true) df.

(** The bed count the capacity reference gives for a pair, if any. *)
Definition capacity_of (beds_ref : list CapacityRecord) (k : key) : option Z :=
  baseline_staffed_beds <$> head (filter (λ b, cap_key b = k) beds_ref).

(** ** The census engine *)

(** [(g["admit_d"] <= d) & (g["discharge_d"] > d)] on one row of the two
    date columns. *)
Definition present_cells (d : Z) (g_row : date_cell * date_cell) : bool :=
  cell_le g_row.1 d && cell_gt g_row.2 d.

Definition present_on (d : Z) (e : Encounter) : bool :=
  present_cells d (admit_d e, discharge_d e).

(** [.sum()] of the boolean column over the group. *)
Definition count_present (d : Z) (g : list (date_cell * date_cell)) : Z :=
  Z.of_nat (length (filter (λ r, present_cells d r = true) g)).

Definition census_count (g : list Encounter) (d : Z) : Z :=
  Z.of_nat (length (filter (λ e, present_on d e = true) g)).

(** The inner loop: one dict per day of the window. *)
Definition census_list (k : key) (g : list Encounter) (days : list Z) : list CensusRow :=
  (λ d, mkCensus k.1 k.2 d (census_count g d)) <$> days.

(** The outer loop followed by [pd.concat].  A frame built from an empty
    list of dicts has no column, so the concatenation has the four columns
    exactly when it has a row. *)
Definition census_frame (df : list Encounter) (days : list Z) : list CensusRow :=
  k ← group_keys df; census_list k (group_of k df) days.

Definition census_key (c : CensusRow) : key := (c_hospital c, c_unit_id c).

(** [left.merge(beds_ref, on=["hospital","unit_id"], how="left")]: every
    left row once per matching capacity record, in the order of the capacity
    reference, and once with a missing bed count when none matches. *)
Definition merge_row {A} (key_of : A → key) (beds_ref : list CapacityRecord) (c : A)
  : list (Merged A) :=
  match filter (λ b, cap_key b = key_of c) beds_ref with
  | [] => [mkMerged c None]
  | bs => (λ b, mkMerged c (Some (baseline_staffed_beds b))) <$> bs
  end.

Definition merge_left {A} (key_of : A → key) (left : list A)
    (beds_ref : list CapacityRecord) : list (Merged A) :=
  left ≫= merge_row key_of beds_ref.

(** [np.where(cond, x, y)]; both branches are already evaluated. *)
Definition np_where {A} (cond : bool) (x y : A) : A := if cond then x else y.

(** [fillna(0).astype(int)] on one cell. *)
Definition fillna0 (c : option Z) : Z := default 0 c.

(** [np.where(staffed_beds > 0, (census / staffed_beds) * 100.0, np.nan)]. *)
Definition occ_pct_of (census_v staffed : Z) : float64 :=
  np_where (0 <? staffed)
    (F.mul (F.div (F.of_int census_v) (F.of_int staffed)) (F.of_int 100))
    NaN.

(** The rename, the integer bed column and the [occ_pct] column, on one row. *)
Definition attach_occupancy (m : Merged CensusRow) : DailyOccupancyPoint :=
  let c := m_row m in
  let beds := fillna0 (m_baseline m) in
  mkPoint (c_hospital c) (c_unit_id c) (c_date c) (c_census c) beds
    (occ_pct_of (c_census c) beds).

Definition compute_daily_true_occupancy (adm : list Encounter)
    (beds_ref : list CapacityRecord) (date_start date_end : Z)
  : result (list DailyOccupancyPoint) :=
  match adm with
  | [] => Ok []
  | _ =>
      let days := date_range date_start date_end in
      match census_frame adm days with
      | [] => Raise (KeyError "hospital")
      | census_rows => Ok (attach_occupancy <$> merge_left census_key census_rows beds_ref)
      end
  end.

(** ** The metrics computed by the page *)

(** [adm.groupby(adm["admit_ts"].dt.date).size()]: the days on which an
    admission happened, sorted, each with its number of admissions; rows
    whose date is NaT belong to no group. *)
Definition admit_days (adm : list Encounter) : list Z :=
  merge_sort Z.le (remove_dups (omap admit_d adm)).

Definition admitted_on (d : Z) (adm : list Encounter) : Z :=
  Z.of_nat (length (filter (λ e, admit_d e = Some d) adm)).

Definition admissions_by_day (adm : list Encounter) : list (Z * Z) :=
  (λ d, (d, admitted_on d adm)) <$> admit_days adm.

(** [... .size().mean() if len(adm) else 0.0] *)
Definition admissions_per_day (adm : list Encounter) : float64 :=
  match adm with
  | [] => Fin 0
  | _ => F.mean_int (snd <$> admissions_by_day adm)
  end.

(** Following the spec's words: the arithmetic mean of the per-day
    admission counts, taken over those days of a calendar on which at least
    one admission occurred. *)
Definition active_days (calendar : list Z) (adm : list Encounter) : list Z :=
  filter (λ d, 1 <= admitted_on d adm) calendar.

Definition mean_over_active_days (calendar : list Z) (adm : list Encounter) : float64 :=
  F.mean_int ((λ d, admitted_on d adm) <$> active_days calendar adm).

(** The true daily rate the KPI is not: every day of the calendar counts,
    those without admission as zero. *)
Definition mean_over_all_days (calendar : list Z) (adm : list Encounter) : float64 :=
  F.mean_int ((λ d, admitted_on d adm) <$> calendar).

(** A row of [daily_arrivals]. *)
Record ArrivalRow : Type := mkArrival {
  a_hospital : string;
  a_unit_id : string;
  a_date : Z;
  arrivals : Z
}.

Definition arrival_key (a : ArrivalRow) : key := (a_hospital a, a_unit_id a).

Definition day_key : Type := key * Z.

Definition day_key_leb (k1 k2 : day_key) : bool :=
  if decide (k1.1 = k2.1) then k1.2 <=? k2.2 else key_leb k1.1 k2.1.
Definition day_key_le : relation day_key := λ k1 k2, day_key_leb k1 k2.

#[global] Instance day_key_le_dec : RelDecision day_key_le.
Proof. intros k1 k2. unfold day_key_le. apply _. Defined.

Definition enc_day_key (e : Encounter) : option day_key :=
  (λ d, (enc_key e, d)) <$> admit_d e.

(** [adm.assign(date=...).groupby(["hospital","unit_id","date"]).size()
    .reset_index(name="arrivals")] *)
Definition daily_arrivals (adm : list Encounter) : list ArrivalRow :=
  (λ k : day_key,
     mkArrival k.1.1 k.1.2 k.2
       (Z.of_nat (length (filter (λ e, enc_day_key e = Some k) adm))))
  <$> merge_sort day_key_le (remove_dups (omap enc_day_key adm)).

(** The [occ_proxy] column: arrivals over beds, capped at 1.2. *)
Definition occ_proxy_of (m : Merged ArrivalRow) : float64 :=
  F.clip_upper (Fin (12 # 10))
    (F.div (F.of_int (arrivals (m_row m))) (F.of_cell (m_baseline m))).

Definition occ_proxy (adm : list Encounter) (beds_ref : list CapacityRecord)
  : list (Merged ArrivalRow * float64) :=
  (λ m, (m, occ_proxy_of m)) <$> merge_left arrival_key (daily_arrivals adm) beds_ref.

(** ** The query layer *)

(** SQL's three-valued logic: [None] is NULL, and [WHERE] keeps a row only
    when the condition is true. *)
Definition sql_bool : Type := option bool.

Definition sql_and (a b : sql_bool) : sql_bool :=
  match a, b with
  | Some false, _ | _, Some false => Some false
  | Some true, Some true => Some true
  | _, _ => None
  end.

Definition sql_ge (a b : option Z) : sql_bool :=
  match a, b with Some x, Some y => Some (y <=? x) | _, _ => None end.
Definition sql_le (a b : option Z) : sql_bool :=
  match a, b with Some x, Some y => Some (x <=? y) | _, _ => None end.
Definition sql_eq (a b : string) : sql_bool := Some (bool_decide (a = b)).

Definition sql_where {A} (conds : list (A → sql_bool)) (r : A) : bool :=
  match foldl (λ acc c, sql_and acc (c r)) (Some true) conds with
  | Some true => true
  | _ => false
  end.

Section Query.

(** SQLite's [date()] on a text cell, as a day number; NULL when the cell
    is NULL or is not a time value SQLite recognises. *)
Variable sqlite_date : option string → option Z.

(** [pd.to_datetime(..., errors="coerce")] on one cell: NaT for a cell
    that does not parse. *)
Variable to_datetime : option string → datetime64.

(** The conditions appended to [q], one per parameter that is given.  A
    date parameter is a [datetime.date], so [date(?)] of its ISO text is
    that day. *)
Definition conditions (date_from date_to : option Z) (hospital_p unit_p : option string)
  : list (StoredAdmission → sql_bool) :=
  [λ _, Some true]
  ++ match date_from with
     | Some d => [λ r, sql_ge (sqlite_date (admit_ts r)) (Some d)]
     | None => []
     end
  ++ match date_to with
     | Some d => [λ r, sql_le (sqlite_date (admit_ts r)) (Some d)]
     | None => []
     end
  ++ match hospital_p with
     | Some h => if decide (h ≠ "All") then [λ r, sql_eq (hospital r) h] else []
     | None => []
     end
  ++ match unit_p with
     | Some u => if decide (u ≠ "All") then [λ r, sql_eq (unit_id r) u] else []
     | None => []
     end.

(** The two [pd.to_datetime] assignments. *)
Definition coerce_timestamps (r : StoredAdmission) : Encounter :=
  mkAdmission (encounter_id r) (patient_id r) (hospital r) (unit_id r)
    (triage_level r) (to_datetime (admit_ts r)) (to_datetime (discharge_ts r))
    (wait_minutes r).

Definition load_admissions (store : list StoredAdmission)
    (date_from date_to : option Z) (hospital_p unit_p : option string)
  : list Encounter :=
  coerce_timestamps
  <$> filter (λ r, sql_where (conditions date_from date_to hospital_p unit_p) r = true) store.

(** Following the spec's words: a date bound that is given holds of the
    calendar date of [admit_ts]; a hospital or unit parameter that is given
    and is not the sentinel equals the column; [discharge_ts] is not looked at. *)
Definition within (bound : option Z) (rel : Z → Z → Prop) (cell : option Z) : Prop :=
  match bound, cell with
  | None, _ => True
  | Some d, Some a => rel d a
  | Some _, None => False
  end.

Definition matches_param (p : option string) (v : string) : Prop :=
  match p with
  | None => True
  | Some s => s = "All" ∨ v = s
  end.

Definition passes_filters (date_from date_to : option Z) (hospital_p unit_p : option string)
    (r : StoredAdmission) : Prop :=
  within date_from Z.le (sqlite_date (admit_ts r)) ∧
  within date_to Z.ge (sqlite_date (admit_ts r)) ∧
  matches_param hospital_p (hospital r) ∧
  matches_param unit_p (unit_id r).

#[global] Instance within_dec bound rel `{RelDecision Z Z rel} cell :
  Decision (within bound rel cell).
Proof. destruct bound, cell; simpl; apply _. Defined.

#[global] Instance matches_param_dec p v : Decision (matches_param p v).
Proof. destruct p; simpl; apply _. Defined.

#[global] Instance passes_filters_dec date_from date_to hospital_p unit_p r :
  Decision (passes_filters date_from date_to hospital_p unit_p r).
Proof. unfold passes_filters. apply _. Defined.

End Query.

(** The same stored row with another discharge cell. *)
Definition with_discharge {T} (ts : T) (r : Admission T) : Admission T :=
  mkAdmission (encounter_id r) (patient_id r) (hospital r) (unit_id r)
    (triage_level r) (admit_ts r) ts (wait_minutes r).

(** ** DataFrames as heap objects

    pandas frames are mutable objects handled by reference.  The heap maps an
    object identity to the current content of the frame; [df["c"] = ...] and
    [rename(inplace=True)] overwrite the content in place, while [copy],
    [pd.DataFrame], [pd.concat] and [merge] allocate a new object. *)

Definition loc : Type := positive.

Inductive frame : Type :=
  | EncFrame (rows : list Encounter) (admit_d_col discharge_d_col : option (list date_cell))
  | CapFrame (rows : list CapacityRecord)
  | CensusFrame (rows : list CensusRow)
  | OutFrame (rows : list (Merged CensusRow)) (beds_label : string)
      (occ_pct_col : option (list float64)).

Definition PY (A : Type) : Type := gmap loc frame → result A * gmap loc frame.

#[global] Instance py_ret : MRet PY := λ A a σ, (Ok a, σ).
#[global] Instance py_bind : MBind PY := λ A B f m σ,
  match m σ with
  | (Ok a, σ') => f a σ'
  | (Raise e, σ') => (Raise e, σ')
  end.

Definition py_raise {A} (e : exn) : PY A := λ σ, (Raise e, σ).

(** A new object, at an identity no live object has. *)
Definition py_alloc (f : frame) : PY loc := λ σ,
  let l := fresh (dom σ) in (Ok l, <[l := f]> σ).

Definition py_read (l : loc) : PY frame := λ σ,
  match σ !! l with
  | Some f => (Ok f, σ)
  | None => (Raise NameError, σ)
  end.

Definition py_write (l : loc) (f : frame) : PY unit := λ σ, (Ok (), <[l := f]> σ).

(** [frame.empty] *)
Definition frame_empty (f : frame) : bool :=
  match f with
  | EncFrame [] _ _ | CapFrame [] | CensusFrame [] | OutFrame [] _ _ => true
  | _ => false
  end.

(** [adm.copy()] *)
Definition py_copy (l : loc) : PY loc := f ← py_read l; py_alloc f.

(** [df["admit_d"] = df["admit_ts"].dt.date] *)
Definition py_set_admit_d (df : loc) : PY unit :=
  f ← py_read df;
  match f with
  | EncFrame rows _ dd => py_write df (EncFrame rows (Some (admit_d <$> rows)) dd)
  | _ => py_raise (KeyError "admit_ts")
  end.

(** [df["discharge_d"] = df["discharge_ts"].dt.date] *)
Definition py_set_discharge_d (df : loc) : PY unit :=
  f ← py_read df;
  match f with
  | EncFrame rows ad _ => py_write df (EncFrame rows ad (Some (discharge_d <$> rows)))
  | _ => py_raise (KeyError "discharge_ts")
  end.

(** [g[["admit_d","discharge_d"]]] for the rows of group [k]. *)
Definition group_cells (rows : list Encounter) (ad dd : list date_cell) (k : key)
  : list (date_cell * date_cell) :=
  snd <$> filter (λ r, in_group k r.1 = true) (zip rows (zip ad dd)).

(** The inner loop over the days, on the two date columns. *)
Definition census_list_cells (k : key) (g : list (date_cell * date_cell)) (days : list Z)
  : list CensusRow :=
  (λ d, mkCensus k.1 k.2 d (count_present d g)) <$> days.

(** One round of the outer loop, ending with the frame built from
    [census_list]. *)
Definition py_group_census (rows : list Encounter) (ad dd : list date_cell)
    (days : list Z) (k : key) : PY loc :=
  py_alloc (CensusFrame (census_list_cells k (group_cells rows ad dd k) days)).

(** [for (h, u), g in df.groupby(["hospital", "unit_id"]): ...] *)
Definition py_groups (df : loc) (days : list Z) : PY (list loc) :=
  f ← py_read df;
  match f with
  | EncFrame rows (Some ad) (Some dd) =>
      mapM (py_group_census rows ad dd days) (group_keys rows)
  | EncFrame _ None _ => py_raise (KeyError "admit_d")
  | EncFrame _ _ None => py_raise (KeyError "discharge_d")
  | _ => py_raise (KeyError "hospital")
  end.

Definition py_read_census (l : loc) : PY (list CensusRow) :=
  f ← py_read l;
  match f with
  | CensusFrame rows => mret rows
  | _ => py_raise (KeyError "census")
  end.

(** [pd.concat(groups, ignore_index=True) if groups else pd.DataFrame()] *)
Definition py_concat (groups : list loc) : PY loc :=
  frames ← mapM py_read_census groups;
  py_alloc (CensusFrame (concat frames)).

(** [census.merge(beds_ref, on=["hospital","unit_id"], how="left")]; the
    key columns are looked up in the left frame first. *)
Definition py_merge (census_l beds_l : loc) : PY loc :=
  c ← py_read census_l;
  b ← py_read beds_l;
  match c, b with
  | CensusFrame [], _ => py_raise (KeyError "hospital")
  | CensusFrame rows, CapFrame beds =>
      py_alloc (OutFrame (merge_left census_key rows beds) "baseline_staffed_beds" None)
  | _, _ => py_raise (KeyError "hospital")
  end.

(** [out.rename(columns={"baseline_staffed_beds": "staffed_beds"}, inplace=True)] *)
Definition py_rename_inplace (out : loc) : PY unit :=
  f ← py_read out;
  match f with
  | OutFrame rows label occ =>
      py_write out
        (OutFrame rows (if decide (label = "baseline_staffed_beds") then "staffed_beds" else label) occ)
  | _ => mret ()
  end.

(** [out["staffed_beds"] = out["staffed_beds"].fillna(0).astype(int)] *)
Definition py_set_staffed_beds (out : loc) : PY unit :=
  f ← py_read out;
  match f with
  | OutFrame rows label occ =>
      if decide (label = "staffed_beds")
      then py_write out
             (OutFrame ((λ m, mkMerged (m_row m) (Some (fillna0 (m_baseline m)))) <$> rows)
                label occ)
      else py_raise (KeyError "staffed_beds")
  | _ => py_raise (KeyError "staffed_beds")
  end.

(** [out["occ_pct"] = np.where(out["staffed_beds"] > 0, ..., np.nan)] *)
Definition py_set_occ_pct (out : loc) : PY unit :=
  f ← py_read out;
  match f with
  | OutFrame rows label _ =>
      if decide (label = "staffed_beds")
      then py_write out
             (OutFrame rows label
                (Some ((λ m, occ_pct_of (c_census (m_row m)) (fillna0 (m_baseline m))) <$> rows)))
      else py_raise (KeyError "staffed_beds")
  | _ => py_raise (KeyError "staffed_beds")
  end.

(** The function on object references. *)
Definition compute_daily_true_occupancy_py (adm beds_ref : loc) (date_start date_end : Z)
  : PY loc :=
  a ← py_read adm;
  if frame_empty a then py_alloc (OutFrame [] "staffed_beds" (Some []))
  else
    df ← py_copy adm;
    _ ← py_set_admit_d df;
    _ ← py_set_discharge_d df;
    let days := date_range date_start date_end in
    groups ← py_groups df days;
    census_l ← py_concat groups;
    out ← py_merge census_l beds_ref;
    _ ← py_rename_inplace out;
    _ ← py_set_staffed_beds out;
    _ ← py_set_occ_pct out;
    mret out.

(** A computation that, run from any heap holding the objects of [σ0],
    leaves those objects as they are, and returns only values in [Q]. *)
Definition keeps (σ0 : gmap loc frame) {A} (m : PY A) (Q : A → Prop) : Prop :=
  ∀ σ, σ0 ⊆ σ → σ0 ⊆ (m σ).2 ∧ ∀ a, (m σ).1 = Ok a → Q a.

(** [m], started in heap [σ], ends with [r] in heap [σ']. *)
Definition runs {A} (m : PY A) (σ : gmap loc frame) (r : result A) (σ' : gmap loc frame)
  : Prop := m σ = (r, σ').

(** An object created after the heap [σ0] was taken. *)
Definition new_object (σ0 : gmap loc frame) (l : loc) : Prop := σ0 !! l = None.

(** The points a finished output frame holds. *)
Definition frame_points (f : frame) : option (list DailyOccupancyPoint) :=
  match f with
  | OutFrame rows label (Some occ) =>
      if decide (label = "staffed_beds")
      then Some (zip_with (λ m o,
                   mkPoint (c_hospital (m_row m)) (c_unit_id (m_row m)) (c_date (m_row m))
                     (c_census (m_row m)) (fillna0 (m_baseline m)) o) rows occ)
      else None
  | _ => None
  end.

(** ** The rest of the page: KPIs, flags and the page flow *)

Definition float_add (x y : float64) : float64 :=
  match x, y with
  | NaN, _ | _, NaN => NaN
  | Fin a, Fin b => Fin (Qred (a + b))
  | PInf, NInf | NInf, PInf => NaN
  | PInf, _ | _, PInf => PInf
  | NInf, _ | _, NInf => NInf
  end.

Definition dropna (l : list float64) : list float64 :=
  filter (λ x, F.is_nan x = false) l.

(** [Series.mean()] of a float column: NaN cells are skipped, and the
    mean of no cell at all is NaN. *)
Definition mean_skipna (l : list float64) : float64 :=
  F.div (foldr float_add (Fin 0) (dropna l)) (F.of_int (Z.of_nat (length (dropna l)))).

(** A cell that is not an infinity; a cell that is not negative either. *)
Definition finite_or_nan (x : float64) : Prop := x = NaN ∨ ∃ q, x = Fin q.
Definition nonneg_or_nan (x : float64) : Prop := x = NaN ∨ ∃ q, x = Fin q ∧ (0 <= q)%Q.

Definition NS_PER_HOUR : Z := 3600000000000.

(** [(adm["discharge_ts"] - adm["admit_ts"]).dt.total_seconds() / 3600.0]
    on one row: NaN when either timestamp is NaT. *)
Definition los_hours (e : Encounter) : float64 :=
  match discharge_ts e, admit_ts e with
  | Some d, Some a => Fin (Qred (inject_Z (d - a) / inject_Z NS_PER_HOUR))
  | _, _ => NaN
  end.

(** [float(adm["los_hours"].mean()) if len(adm) else 0.0] *)
Definition avg_los (adm : list Encounter) : float64 :=
  match adm with
  | [] => Fin 0
  | _ => mean_skipna (los_hours <$> adm)
  end.

(** The rows with both timestamps. *)
Definition complete_rows (adm : list Encounter) : list Encounter :=
  filter (λ e, is_Some (admit_ts e) ∧ is_Some (discharge_ts e)) adm.

(** [float(true_occ["occ_pct"].mean()) if len(true_occ) else 0.0] *)
Definition avg_true_occ_pct (true_occ : list DailyOccupancyPoint) : float64 :=
  match true_occ with
  | [] => Fin 0
  | _ => mean_skipna (occ_pct <$> true_occ)
  end.

(** [true_occ.groupby("date")["occ_pct"].mean().reset_index()], the
    series of the daily chart. *)
Definition true_daily (true_occ : list DailyOccupancyPoint) : list (Z * float64) :=
  (λ d, (d, mean_skipna (occ_pct <$> filter (λ p, p_date p = d) true_occ)))
  <$> merge_sort Z.le (remove_dups (p_date <$> true_occ)).

(** [if avg_true_occ_pct >= 85: st.warning(...)] *)
Definition bottleneck (avg : float64) : bool := F.leb (Fin 85) avg.

(** Following the shape of the data: the days of the window an encounter
    spends in its unit, the discharge day not counted; none when a date is
    NaT. *)
Definition stay_days_in_window (date_start date_end : Z) (e : Encounter) : Z :=
  match admit_d e, discharge_d e with
  | Some A, Some B => Z.max 0 (Z.min B (date_end + 1) - Z.max A date_start)
  | _, _ => 0
  end.

Definition sum_Z (l : list Z) : Z := foldr Z.add 0 l.

Section Page.

Variable sqlite_date : option string → option Z.
Variable to_datetime : option string → datetime64.

(** [SELECT MIN(date(admit_ts)), MAX(date(admit_ts)) FROM admissions],
    each turned into a [datetime.date].  The aggregates skip NULL; over no
    date at all they are NULL, and [.date()] of the missing value raises,
    which is [None] here. *)
Definition get_date_bounds (store : list StoredAdmission) : option (Z * Z) :=
  match omap (λ r : StoredAdmission, sqlite_date (admit_ts r)) store with
  | [] => None
  | d :: ds => Some (foldr Z.min d ds, foldr Z.max d ds)
  end.

(** [SELECT DISTINCT hospital ... ORDER BY hospital] and the same for
    [unit_id]. *)
Definition get_distinct_values (store : list StoredAdmission) : list string * list string :=
  (merge_sort String.le (remove_dups (hospital <$> store)),
   merge_sort String.le (remove_dups (unit_id <$> store))).

(** The options of a select box: [["All"] + values]. *)
Definition select_options (values : list string) : list string := "All" :: values.

(** What the page shows for the true occupancy: nothing when the filtered
    set is empty ([st.info] then [st.stop()]), else the result of the census
    engine on the filtered set and the same date range. *)
Definition page_true_occ (store : list StoredAdmission) (beds_ref : list CapacityRecord)
    (range_start range_end : Z) (hospital_sel unit_sel : string)
  : option (result (list DailyOccupancyPoint)) :=
  let adm := load_admissions sqlite_date to_datetime store
               (Some range_start) (Some range_end) (Some hospital_sel) (Some unit_sel) in
  if decide (length adm = 0%nat) then None
  else Some (compute_daily_true_occupancy adm beds_ref range_start range_end).

End Page.

(** ** The bootstrap of the database *)

Inductive stop_reason : Type :=
  | NoSchema
  | NoDataDir
  | MissingCsv (name : string).

(** How a bootstrap ends: it returns, [st.stop()] halts the script after
    an [st.error], or a library call raises. *)
Inductive outcome : Type :=
  | Returned
  | Stopped (why : stop_reason)
  | Raised.

Definition TABLES : list string := ["patients"; "units"; "bed_capacity"; "staff"; "admissions"].

Section Bootstrap.

(** The content of schema.sql, of a CSV file and of a database file. *)
Variables Schema Csv Db : Type.

(** The file [sqlite3.connect] creates when there is none. *)
Variable empty_db : Db.

(** [con.executescript(script)]: the database it leaves, and whether it
    returned (it may raise after some statements have run). *)
Variable executescript : Schema → Db → Db * bool.

(** [pd.read_csv(path).to_sql(name, con, if_exists="append", index=False)]:
    the database it leaves and whether it returned. *)
Variable to_sql : string → Csv → Db → Db * bool.

Record FileSystem : Type := mkFS {
  db_file : option Db;
  schema_file : option Schema;
  data_dir : option (gmap string Csv)
}.

Definition with_db (fs : FileSystem) (db : Db) : FileSystem :=
  mkFS (Some db) (schema_file fs) (data_dir fs).

(** The loop of [ensure_db_exists] over the table names: a CSV that is not
    there stops the script, a failing load raises. *)
Fixpoint load_tables (dir : gmap string Csv) (names : list string) (db : Db) : Db * outcome :=
  match names with
  | [] => (db, Returned)
  | name :: rest =>
      match dir !! name with
      | None => (db, Stopped (MissingCsv name))
      | Some csv =>
          let (db', ok) := to_sql name csv db in
          if ok then load_tables dir rest db' else (db', Raised)
      end
  end.

(** [ensure_db_exists]; the [finally] commits and closes whatever ended
    the [try], so the file [connect] created stays. *)
Definition ensure_db_exists (fs : FileSystem) : FileSystem * outcome :=
  match db_file fs with
  | Some _ => (fs, Returned)
  | None =>
      match schema_file fs with
      | None => (fs, Stopped NoSchema)
      | Some script =>
          match data_dir fs with
          | None => (fs, Stopped NoDataDir)
          | Some dir =>
              let (db1, ok) := executescript script empty_db in
              if ok
              then let (db2, out) := load_tables dir TABLES db1 in (with_db fs db2, out)
              else (with_db fs db1, Raised)
          end
      end
  end.

(** The loads of make_sqlite.py, one statement per table, none guarded:
    a CSV that is not there makes [read_csv] raise. *)
Fixpoint load_tables_unguarded (dir : gmap string Csv) (names : list string) (db : Db)
  : Db * outcome :=
  match names with
  | [] => (db, Returned)
  | name :: rest =>
      match dir !! name with
      | None => (db, Raised)
      | Some csv =>
          let (db', ok) := to_sql name csv db in
          if ok then load_tables_unguarded dir rest db' else (db', Raised)
      end
  end.

(** make_sqlite.py, run from the project root and so on the same three
    paths: connect first (to the file that is there, or to a new one), then
    the schema, then the loads. *)
Definition make_sqlite (fs : FileSystem) : FileSystem * outcome :=
  let db0 := default empty_db (db_file fs) in
  match schema_file fs with
  | None => (with_db fs db0, Raised)
  | Some script =>
      let (db1, ok) := executescript script db0 in
      if ok
      then match data_dir fs with
           | None => (with_db fs db1, Raised)
           | Some dir =>
               let (db2, out) := load_tables_unguarded dir TABLES db1 in (with_db fs db2, out)
           end
      else (with_db fs db1, Raised)
  end.

End Bootstrap.

Arguments mkFS {Schema Csv Db}.
Arguments db_file {Schema Csv Db}.
Arguments schema_file {Schema Csv Db}.
Arguments data_dir {Schema Csv Db}.

(** ** Sample data *)

Definition at_time (d : Z) (ns : Z) : datetime64 := Some (d * NS_PER_DAY + ns).

Definition icu_stay : Encounter :=
  mkAdmission "E1" "P1" "General" "ICU" None (at_time 19723 3600000000000)
    (at_time 19725 0) None.

(** A heap with the two argument frames of the running example. *)
Definition sample_heap : gmap loc frame :=
  <[2%positive := CapFrame [mkCapacity "General" "ICU" 2]]>
    (<[1%positive := EncFrame [icu_stay] None None]> ∅).

Definition clinic_visit : Encounter :=
  mkAdmission "E2" "P2" "General" "ICU" None (at_time 19724 28800000000000)
    (at_time 19724 61200000000000) None.

(** Two cells the sample parsers know, and a stored row whose discharge
    cell neither of them reads. *)
Definition sample_sqlite_date (c : option string) : option Z :=
  match c with
  | Some "2024-01-01 01:00:00" => Some 19723
  | Some "2024-01-03 00:00:00" => Some 19725
  | _ => None
  end.

Definition sample_to_datetime (c : option string) : datetime64 :=
  match c with
  | Some "2024-01-01 01:00:00" => at_time 19723 3600000000000
  | Some "2024-01-03 00:00:00" => at_time 19725 0
  | _ => None
  end.

Definition stored_icu_stay : StoredAdmission :=
  mkAdmission "E1" "P1" "General" "ICU" None (Some "2024-01-01 01:00:00")
    (Some "2024-01-03 00:00:00") None.

Definition stored_garbled : StoredAdmission :=
  mkAdmission "E3" "P3" "General" "ICU" None (Some "2024-01-01 01:00:00")
    (Some "03/01/2024 late") None.

Definition stored_unreadable : StoredAdmission :=
  mkAdmission "E4" "P4" "General" "ED" None (Some "01/01/2024") None None.

(** A toy database for the bootstrap: a log of the loads, a script that
    always runs, and a data folder without the staff file. *)
Definition sample_to_sql (name : string) (csv : list Z) (db : list (string * list Z))
  : list (string * list Z) * bool := ((db ++ [(name, csv)])%list, true).

Definition sample_executescript (script : unit) (db : list (string * list Z))
  : list (string * list Z) * bool := (db, true).

Definition sample_dir_no_staff : gmap string (list Z) :=
  <["patients" := [1; 2]]> (<["units" := [3]]> (<["bed_capacity" := [4]]>
    (<["admissions" := [5; 6]]> ∅))).

Definition sample_dir_full : gmap string (list Z) := <["staff" := [7]]> sample_dir_no_staff.

(** ** The running example of the spec *)

Example spec_example_with_capacity :
  compute_daily_true_occupancy [icu_stay] [mkCapacity "General" "ICU" 2] 19723 19725
  = Ok [ mkPoint "General" "ICU" 19723 1 2 (Fin 50);
         mkPoint "General" "ICU" 19724 1 2 (Fin 50);
         mkPoint "General" "ICU" 19725 0 2 (Fin 0) ].
Proof. vm_compute. reflexivity. Qed.

Example spec_example_without_capacity :
  compute_daily_true_occupancy [icu_stay] [] 19723 19725
  = Ok [ mkPoint "General" "ICU" 19723 1 0 NaN;
         mkPoint "General" "ICU" 19724 1 0 NaN;
         mkPoint "General" "ICU" 19725 0 0 NaN ].
Proof. vm_compute. reflexivity. Qed.

Example reversed_window_raises :
  compute_daily_true_occupancy [icu_stay] [] 19725 19723 = Raise (KeyError "hospital").
Proof. vm_compute. reflexivity. Qed.

Example proxy_zero_beds :
  snd <$> occ_proxy [icu_stay] [mkCapacity "General" "ICU" 0] = [Fin (12 # 10)].
Proof. vm_compute. reflexivity. Qed.

Example proxy_no_capacity : snd <$> occ_proxy [icu_stay] [] = [NaN].
Proof. vm_compute. reflexivity. Qed.

Example admissions_per_day_example :
  admissions_per_day [icu_stay; icu_stay] = Fin 2.
Proof. vm_compute. reflexivity. Qed.

(** * Properties *)

(** ** The day grid *)

Lemma elem_of_date_range d ds de : d ∈ date_range ds de ↔ ds <= d <= de.
Proof.
  unfold date_range. rewrite list_elem_of_fmap. split.
  - intros (i & -> & Hi). apply elem_of_seq in Hi. lia.
  - intros Hd. exists (Z.to_nat (d - ds)). split; [lia|].
    apply elem_of_seq. lia.
Qed.

Lemma NoDup_date_range ds de : NoDup (date_range ds de).
Proof.
  unfold date_range. apply NoDup_fmap_2; [|apply NoDup_seq].
  intros i j Hij. lia.
Qed.

Lemma length_date_range ds de :
  ds <= de → length (date_range ds de) = Z.to_nat (de - ds + 1).
Proof. intros _. unfold date_range. by rewrite length_fmap, length_seq. Qed.

Lemma date_range_nonempty ds de : ds <= de → date_range ds de ≠ [].
Proof.
  intros Hle Hnil. assert (Hin : ds ∈ date_range ds de) by (apply elem_of_date_range; lia).
  rewrite Hnil in Hin. by apply not_elem_of_nil in Hin.
Qed.

(** ** Groups *)

Lemma elem_of_group_keys {T} (df : list (Admission T)) k :
  k ∈ group_keys df ↔ ∃ e, e ∈ df ∧ enc_key e = k.
Proof.
  unfold group_keys. rewrite merge_sort_Permutation, elem_of_remove_dups, list_elem_of_fmap.
  split; [intros (e & -> & He)|intros (e & He & <-)]; by exists e.
Qed.

Lemma NoDup_group_keys {T} (df : list (Admission T)) : NoDup (group_keys df).
Proof.
  unfold group_keys. rewrite merge_sort_Permutation. apply NoDup_remove_dups.
Qed.

#[global] Instance key_le_total : Total key_le.
Proof.
  intros [h1 u1] [h2 u2]. unfold key_le, key_leb. simpl.
  rewrite (String.compare_antisym h2 h1).
  destruct (String.compare h1 h2); simpl; auto.
  destruct (String.leb_total u1 u2) as [-> | ->]; auto.
Qed.

(** The groups come in sorted order, as [groupby] yields them. *)
Lemma Sorted_group_keys {T} (df : list (Admission T)) : Sorted key_le (group_keys df).
Proof. unfold group_keys. apply Sorted_merge_sort. apply _. Qed.

Lemma group_keys_nonempty {T} (df : list (Admission T)) : df ≠ [] → group_keys df ≠ [].
Proof.
  destruct df as [|e df]; [done|]. intros _ Hnil.
  assert (Hin : enc_key e ∈ group_keys (e :: df)).
  { apply elem_of_group_keys. exists e. split; [left|done]. }
  rewrite Hnil in Hin. by apply not_elem_of_nil in Hin.
Qed.

Lemma in_group_true {T} k (e : Admission T) : in_group k e = true ↔ enc_key e = k.
Proof. unfold in_group. apply bool_decide_eq_true. Qed.

(** ** The census frame *)

Lemma census_key_census_list k g days c :
  c ∈ census_list k g days → census_key c = k.
Proof.
  unfold census_list. rewrite list_elem_of_fmap. intros (d & -> & _).
  by destruct k.
Qed.

Lemma elem_of_census_frame df days c :
  c ∈ census_frame df days ↔
  ∃ k d, k ∈ group_keys df ∧ d ∈ days ∧
         c = mkCensus k.1 k.2 d (census_count (group_of k df) d).
Proof.
  unfold census_frame. rewrite list_elem_of_bind. split.
  - intros (k & Hc & Hk). unfold census_list in Hc.
    apply list_elem_of_fmap in Hc as (d & -> & Hd). by exists k, d.
  - intros (k & d & Hk & Hd & ->). exists k. split; [|done].
    unfold census_list. apply list_elem_of_fmap. by exists d.
Qed.

Lemma census_frame_nonempty df days :
  df ≠ [] → days ≠ [] → census_frame df days ≠ [].
Proof.
  intros Hdf Hdays Hnil.
  destruct (group_keys df) as [|k ks] eqn:Hk; [by apply group_keys_nonempty in Hk|].
  destruct days as [|d days]; [done|].
  assert (Hin : mkCensus k.1 k.2 d (census_count (group_of k df) d) ∈ census_frame df (d :: days)).
  { apply elem_of_census_frame. exists k, d. rewrite Hk. split_and!; [left|left|done]. }
  rewrite Hnil in Hin. by apply not_elem_of_nil in Hin.
Qed.

Lemma filter_all {A} (P : A → Prop) `{∀ x, Decision (P x)} (l : list A) :
  (∀ x, x ∈ l → P x) → filter P l = l.
Proof.
  induction l as [|x l IH]; intros HP; [done|].
  rewrite filter_cons_True by (apply HP; left).
  f_equal. apply IH. intros y Hy. apply HP. by right.
Qed.

Lemma filter_none {A} (P : A → Prop) `{∀ x, Decision (P x)} (l : list A) :
  (∀ x, x ∈ l → ¬ P x) → filter P l = [].
Proof.
  induction l as [|x l IH]; intros HP; [done|].
  rewrite filter_cons_False by (apply HP; left).
  apply IH. intros y Hy. apply HP. by right.
Qed.

(** Filtering a concatenation of blocks on the label of one block gives
    that block back, when every label labels one block. *)
Lemma filter_bind_NoDup {A B} `{EqDecision A} (f : A → list B) (kf : B → A) (l : list A) k :
  NoDup l → k ∈ l → (∀ a b, b ∈ f a → kf b = a) →
  filter (λ b, kf b = k) (l ≫= f) = f k.
Proof.
  intros Hnd Hk Hf. induction l as [|a l IH]; [by apply not_elem_of_nil in Hk|].
  apply NoDup_cons in Hnd as [Ha Hnd]. simpl. rewrite filter_app.
  destruct (decide (a = k)) as [->|Hne].
  - rewrite (filter_all _ (f k)) by (intros b Hb; by apply Hf).
    rewrite filter_none; [by rewrite app_nil_r|].
    intros b Hb Hkb. apply list_elem_of_bind in Hb as (a' & Hb & Ha').
    apply Hf in Hb. congruence.
  - rewrite filter_none by (intros b Hb Hkb; apply Hf in Hb; congruence).
    apply IH; [done|]. apply elem_of_cons in Hk as [Hk|Hk]; [congruence|done].
Qed.

Lemma census_frame_group df days k :
  k ∈ group_keys df →
  filter (λ c, census_key c = k) (census_frame df days) = census_list k (group_of k df) days.
Proof.
  intros Hk. unfold census_frame.
  apply (filter_bind_NoDup (λ k, census_list k (group_of k df) days) census_key);
    [apply NoDup_group_keys|done|].
  intros a b. apply census_key_census_list.
Qed.

(** ** The capacity join *)

Lemma capacity_unique_filter beds_ref k :
  capacity_unique beds_ref →
  (length (filter (λ b, cap_key b = k) beds_ref) ≤ 1)%nat.
Proof.
  unfold capacity_unique. induction beds_ref as [|b beds IH]; simpl; [lia|].
  rewrite NoDup_cons. intros [Hb Hnd]. rewrite filter_cons. case_decide as Hk.
  - rewrite filter_none; [simpl; lia|].
    intros b' Hb' Hk'. apply Hb. apply list_elem_of_fmap. exists b'. split; congruence.
  - by apply IH.
Qed.

Lemma merge_row_unique {A} (key_of : A → key) beds_ref (c : A) :
  capacity_unique beds_ref →
  merge_row key_of beds_ref c = [mkMerged c (capacity_of beds_ref (key_of c))].
Proof.
  intros Hu. unfold merge_row, capacity_of.
  pose proof (capacity_unique_filter beds_ref (key_of c) Hu) as Hlen.
  destruct (filter _ beds_ref) as [|b [|b' bs]]; simpl in *; [done|done|lia].
Qed.

Lemma merge_left_unique {A} (key_of : A → key) (left : list A) beds_ref :
  capacity_unique beds_ref →
  merge_left key_of left beds_ref
  = (λ c, mkMerged c (capacity_of beds_ref (key_of c))) <$> left.
Proof.
  intros Hu. unfold merge_left. induction left as [|c left IH]; [done|].
  by rewrite bind_cons, fmap_cons, IH, merge_row_unique.
Qed.

Lemma elem_of_merge_row {A} (key_of : A → key) beds_ref (c : A) m :
  m ∈ merge_row key_of beds_ref c ↔
  m_row m = c ∧
  ((m_baseline m = None ∧ ∀ b, b ∈ beds_ref → cap_key b ≠ key_of c) ∨
   (∃ b, b ∈ beds_ref ∧ cap_key b = key_of c ∧
         m_baseline m = Some (baseline_staffed_beds b))).
Proof.
  unfold merge_row. split.
  - destruct (filter (λ b, cap_key b = key_of c) beds_ref) as [|b bs] eqn:Hf; intros Hm.
    + apply list_elem_of_singleton in Hm as ->. simpl. split; [done|]. left. split; [done|].
      intros b Hb Hk. by apply (filter_nil_not_elem_of _ _ b Hf Hk).
    + apply list_elem_of_fmap in Hm as (b' & -> & Hb'). simpl. split; [done|]. right.
      rewrite <- Hf in Hb'. apply list_elem_of_filter in Hb' as [Hk Hb']. by exists b'.
  - destruct m as [c' o]; cbn [m_row m_baseline]. intros [-> H].
    destruct H as [[-> Hno]|(b & Hb & Hk & ->)].
    + rewrite filter_none; [left|]. intros b Hb Hk. by eapply Hno.
    + assert (Hin : b ∈ filter (λ b, cap_key b = key_of c) beds_ref)
        by (by apply list_elem_of_filter).
      destruct (filter _ beds_ref) as [|b0 bs]; [by apply not_elem_of_nil in Hin|].
      apply list_elem_of_fmap. by exists b.
Qed.

Lemma elem_of_merge_left {A} (key_of : A → key) (left : list A) beds_ref m :
  m ∈ merge_left key_of left beds_ref ↔
  m_row m ∈ left ∧
  ((m_baseline m = None ∧ ∀ b, b ∈ beds_ref → cap_key b ≠ key_of (m_row m)) ∨
   (∃ b, b ∈ beds_ref ∧ cap_key b = key_of (m_row m) ∧
         m_baseline m = Some (baseline_staffed_beds b))).
Proof.
  unfold merge_left. rewrite list_elem_of_bind. split.
  - intros (c & Hm & Hc). apply elem_of_merge_row in Hm as [<- H]. done.
  - intros [Hc H]. exists (m_row m). split; [|done]. by apply elem_of_merge_row.
Qed.

Lemma merge_row_nonempty {A} (key_of : A → key) beds_ref (c : A) :
  merge_row key_of beds_ref c ≠ [].
Proof. unfold merge_row. destruct (filter _ beds_ref); simpl; discriminate. Qed.

Lemma merge_left_nonempty {A} (key_of : A → key) (left : list A) beds_ref :
  left ≠ [] → merge_left key_of left beds_ref ≠ [].
Proof.
  destruct left as [|c left]; [done|]. intros _. unfold merge_left.
  rewrite bind_cons. intros [H _]%app_eq_nil. by apply merge_row_nonempty in H.
Qed.

(** ** Presence of one encounter on one day *)

Lemma present_on_valid d (e : Encounter) ta tb :
  admit_ts e = Some ta → discharge_ts e = Some tb →
  present_on d e = bool_decide (ta `div` NS_PER_DAY <= d < tb `div` NS_PER_DAY).
Proof.
  intros Ha Hb. unfold present_on, present_cells, admit_d, discharge_d. rewrite Ha, Hb. simpl.
  apply eq_true_iff_eq. rewrite andb_true_iff, Z.leb_le, Z.ltb_lt, bool_decide_eq_true. done.
Qed.

Lemma present_on_invalid d (e : Encounter) :
  admit_ts e = None ∨ discharge_ts e = None → present_on d e = false.
Proof.
  intros [H|H]; unfold present_on, present_cells, admit_d, discharge_d; rewrite H; simpl.
  - done.
  - apply andb_false_r.
Qed.

(** What one encounter adds to the census cell of group [k] on day [d]. *)
Lemma census_count_insert k d l1 (e : Encounter) l2 :
  census_count (group_of k (l1 ++ e :: l2)) d
  = census_count (group_of k (l1 ++ l2)) d
    + (if bool_decide (enc_key e = k) && present_on d e then 1 else 0).
Proof.
  unfold census_count, group_of. rewrite !filter_app, (filter_cons _ e).
  destruct (decide (in_group k e = true)) as [Hk|Hk].
  - rewrite (bool_decide_eq_true_2 _ (proj1 (in_group_true k e) Hk)).
    rewrite filter_cons. destruct (present_on d e); simpl; rewrite !length_app; simpl; lia.
  - rewrite bool_decide_eq_false_2 by (intros Hk'; by apply Hk, in_group_true). simpl.
    rewrite !length_app. lia.
Qed.

(** ** What the census engine returns *)

Lemma compute_nonempty_window adm beds_ref ds de :
  ds <= de →
  compute_daily_true_occupancy adm beds_ref ds de
  = Ok (attach_occupancy <$> merge_left census_key (census_frame adm (date_range ds de)) beds_ref).
Proof.
  intros Hle. unfold compute_daily_true_occupancy.
  destruct adm as [|e adm]; [done|].
  pose proof (census_frame_nonempty (e :: adm) (date_range ds de)) as Hne.
  destruct (census_frame (e :: adm) (date_range ds de)) as [|c cs].
  - exfalso. apply Hne; [done|by apply date_range_nonempty|done].
  - done.
Qed.

Lemma compute_Ok_inv adm beds_ref ds de out :
  compute_daily_true_occupancy adm beds_ref ds de = Ok out →
  out = attach_occupancy <$> merge_left census_key (census_frame adm (date_range ds de)) beds_ref.
Proof.
  unfold compute_daily_true_occupancy. destruct adm as [|e adm].
  - intros [= <-]. done.
  - destruct (census_frame (e :: adm) (date_range ds de)); [done|]. by intros [= <-].
Qed.

(** Every cell of every output row, read off the inputs. *)
Lemma elem_of_output adm beds_ref days p :
  p ∈ attach_occupancy <$> merge_left census_key (census_frame adm days) beds_ref →
  point_key p ∈ group_keys adm ∧ p_date p ∈ days ∧
  census p = census_count (group_of (point_key p) adm) (p_date p) ∧
  occ_pct p = occ_pct_of (census p) (staffed_beds p) ∧
  ((staffed_beds p = 0 ∧ ∀ b, b ∈ beds_ref → cap_key b ≠ point_key p) ∨
   (∃ b, b ∈ beds_ref ∧ cap_key b = point_key p ∧ staffed_beds p = baseline_staffed_beds b)).
Proof.
  intros (m & -> & Hm)%list_elem_of_fmap.
  apply elem_of_merge_left in Hm as [Hc Hb].
  apply elem_of_census_frame in Hc as (k & d & Hk & Hd & Hc).
  destruct m as [c o]. simpl in *. subst c.
  unfold attach_occupancy, point_key, census_key in *. simpl in *.
  destruct k as [h u]. simpl in *. split_and!; try done.
  destruct Hb as [[-> Hno]|(b & Hb & Hkb & ->)]; [left|right]; simpl; [done|].
  by exists b.
Qed.

(** Every group of the input meets every day of the window in the output. *)
Lemma output_covers adm beds_ref days (e : Encounter) d :
  e ∈ adm → d ∈ days →
  ∃ p, p ∈ attach_occupancy <$> merge_left census_key (census_frame adm days) beds_ref ∧
       point_key p = enc_key e ∧ p_date p = d.
Proof.
  intros He Hd.
  set (c := mkCensus (hospital e) (unit_id e) d (census_count (group_of (enc_key e) adm) d)).
  assert (Hc : c ∈ census_frame adm days).
  { apply elem_of_census_frame. exists (enc_key e), d. split_and!; [|done|done].
    apply elem_of_group_keys. by exists e. }
  destruct (merge_row census_key beds_ref c) as [|m ms] eqn:Hm;
    [by apply merge_row_nonempty in Hm|].
  assert (Hin : m ∈ merge_row census_key beds_ref c) by (rewrite Hm; left).
  exists (attach_occupancy m). split.
  - apply list_elem_of_fmap. exists m. split; [done|].
    unfold merge_left. apply list_elem_of_bind. by exists c.
  - apply elem_of_merge_row in Hin as [Hrow _]. unfold attach_occupancy, point_key.
    rewrite Hrow. done.
Qed.

(** What the other encounters of the collection put into the cells of a
    row: the census of the row had one encounter been left out. *)
Lemma census_without adm_l adm_r (e : Encounter) beds_ref days p :
  p ∈ attach_occupancy <$> merge_left census_key (census_frame (adm_l ++ e :: adm_r) days) beds_ref →
  p_date p ∈ days ∧
  census p = census_count (group_of (point_key p) (adm_l ++ adm_r)) (p_date p)
             + (if bool_decide (enc_key e = point_key p) && present_on (p_date p) e
                then 1 else 0).
Proof.
  intros Hp. apply elem_of_output in Hp as (_ & Hd & Hc & _). split; [done|].
  rewrite Hc. apply census_count_insert.
Qed.

(** C1. Half-open interval law: an encounter with valid timestamps whose
    admit day [A] lies before its discharge day [B] adds exactly 1 to the
    census of the rows of its own (hospital, unit) group on the days [D] of
    the window with [A <= D < B], and nothing to any other row; each such day
    of the window has its row. *)
Theorem half_open_interval_law (adm_l adm_r : list Encounter) (e : Encounter)
    (beds_ref : list CapacityRecord) (date_start date_end ta tb : Z) :
  admit_ts e = Some ta → discharge_ts e = Some tb →
  ta `div` NS_PER_DAY < tb `div` NS_PER_DAY →
  date_start <= date_end →
  ∃ out,
    compute_daily_true_occupancy (adm_l ++ e :: adm_r) beds_ref date_start date_end = Ok out ∧
    (∀ D, date_start <= D <= date_end →
          ∃ p, p ∈ out ∧ point_key p = enc_key e ∧ p_date p = D) ∧
    (∀ p, p ∈ out →
          date_start <= p_date p <= date_end ∧
          census p
          = census_count (group_of (point_key p) (adm_l ++ adm_r)) (p_date p)
            + (if bool_decide (point_key p = enc_key e ∧
                               ta `div` NS_PER_DAY <= p_date p < tb `div` NS_PER_DAY)
               then 1 else 0)).
Proof.
  intros Ha Hb _ Hwin. eexists. split; [by apply compute_nonempty_window|]. split.
  - intros D HD. apply output_covers; [|by apply elem_of_date_range].
    apply elem_of_app. right. left.
  - intros p Hp. apply census_without in Hp as [Hd ->].
    apply elem_of_date_range in Hd. split; [done|]. f_equal.
    rewrite (present_on_valid _ e ta tb Ha Hb).
    destruct (decide (enc_key e = point_key p)) as [Hk|Hk].
    + rewrite (bool_decide_eq_true_2 _ Hk). simpl.
      apply (f_equal (λ b : bool, if b then 1 else 0)).
      apply bool_decide_ext. split; [intros ?; split; done|intros [_ ?]; done].
    + rewrite (bool_decide_eq_false_2 _ Hk). simpl.
      rewrite bool_decide_eq_false_2; [done|]. intros [Hk' _]. by apply Hk.
Qed.

Lemma half_open_interval_law_witness :
  ∃ out,
    compute_daily_true_occupancy ([] ++ icu_stay :: []) [] 19723 19725 = Ok out ∧
    (∀ D, 19723 <= D <= 19725 →
          ∃ p, p ∈ out ∧ point_key p = enc_key icu_stay ∧ p_date p = D) ∧
    (∀ p, p ∈ out →
          19723 <= p_date p <= 19725 ∧
          census p
          = census_count (group_of (point_key p) ([] ++ [])) (p_date p)
            + (if bool_decide (point_key p = enc_key icu_stay ∧
                               (19723 * NS_PER_DAY + 3600000000000) `div` NS_PER_DAY
                               <= p_date p < (19725 * NS_PER_DAY + 0) `div` NS_PER_DAY)
               then 1 else 0)).
Proof.
  apply (half_open_interval_law [] [] icu_stay [] 19723 19725
           (19723 * NS_PER_DAY + 3600000000000) (19725 * NS_PER_DAY + 0)).
  - reflexivity.
  - reflexivity.
  - vm_compute. reflexivity.
  - lia.
Defined.

(** C7. Single-day stay: an encounter admitted and discharged on the same
    calendar day adds nothing to the census of any row, its admit day
    included: every census cell is what the other encounters give. *)
Theorem single_day_stay_counts_nowhere (adm_l adm_r : list Encounter) (e : Encounter)
    (beds_ref : list CapacityRecord) (date_start date_end A : Z) :
  admit_d e = Some A → discharge_d e = Some A →
  date_start <= date_end →
  ∃ out,
    compute_daily_true_occupancy (adm_l ++ e :: adm_r) beds_ref date_start date_end = Ok out ∧
    (∀ D, date_start <= D <= date_end →
          ∃ p, p ∈ out ∧ point_key p = enc_key e ∧ p_date p = D) ∧
    (∀ p, p ∈ out →
          census p = census_count (group_of (point_key p) (adm_l ++ adm_r)) (p_date p)).
Proof.
  intros Ha Hb Hwin. eexists. split; [by apply compute_nonempty_window|]. split.
  - intros D HD. apply output_covers; [|by apply elem_of_date_range].
    apply elem_of_app. right. left.
  - intros p Hp. apply census_without in Hp as [_ ->].
    assert (present_on (p_date p) e = false) as ->.
    { unfold present_on, present_cells. rewrite Ha, Hb. simpl.
      apply andb_false_iff. rewrite Z.leb_gt, Z.ltb_ge. lia. }
    rewrite andb_false_r. lia.
Qed.

Lemma single_day_stay_counts_nowhere_witness :
  ∃ out,
    compute_daily_true_occupancy ([icu_stay] ++ clinic_visit :: []) [] 19723 19725 = Ok out ∧
    (∀ D, 19723 <= D <= 19725 →
          ∃ p, p ∈ out ∧ point_key p = enc_key clinic_visit ∧ p_date p = D) ∧
    (∀ p, p ∈ out →
          census p = census_count (group_of (point_key p) ([icu_stay] ++ [])) (p_date p)).
Proof.
  apply (single_day_stay_counts_nowhere [icu_stay] [] clinic_visit [] 19723 19725 19724).
  - vm_compute. reflexivity.
  - vm_compute. reflexivity.
  - lia.
Defined.

(** C6. Empty input: whatever the capacity reference and the window, an
    empty collection gives an output without any row; and no other
    collection does, so the empty output signals the empty input. *)
Theorem empty_input_empty_output (beds_ref : list CapacityRecord) (date_start date_end : Z) :
  compute_daily_true_occupancy [] beds_ref date_start date_end = Ok [] ∧
  ∀ adm, compute_daily_true_occupancy adm beds_ref date_start date_end = Ok [] ↔ adm = [].
Proof.
  split; [done|]. intros adm. split; [|by intros ->].
  destruct adm as [|e adm]; [done|]. unfold compute_daily_true_occupancy.
  destruct (census_frame (e :: adm) (date_range date_start date_end)) as [|c cs] eqn:Hc; [done|].
  intros [= Hnil]. apply fmap_nil_inv in Hnil.
  destruct (merge_left_nonempty census_key (c :: cs) beds_ref ltac:(done) Hnil).
Qed.

Lemma filter_fmap {A B} (f : A → B) (P : B → Prop) `{∀ y, Decision (P y)} (l : list A) :
  filter P (f <$> l) = f <$> filter (λ x, P (f x)) l.
Proof.
  induction l as [|x l IH]; [done|].
  rewrite fmap_cons, !filter_cons, IH. by case_decide.
Qed.

Lemma capacity_of_elem beds_ref b :
  capacity_unique beds_ref → b ∈ beds_ref →
  capacity_of beds_ref (cap_key b) = Some (baseline_staffed_beds b).
Proof.
  intros Hu Hb. unfold capacity_of.
  pose proof (capacity_unique_filter beds_ref (cap_key b) Hu) as Hlen.
  assert (Hin : b ∈ filter (λ b', cap_key b' = cap_key b) beds_ref)
    by (by apply list_elem_of_filter).
  destruct (filter _ beds_ref) as [|b0 [|b1 bs]]; simpl in *; [|..|lia].
  - by apply not_elem_of_nil in Hin.
  - by apply list_elem_of_singleton in Hin as ->.
Qed.

(** The output when each pair has at most one capacity record: one point
    per census row. *)
Lemma compute_unique adm beds_ref ds de :
  ds <= de → capacity_unique beds_ref →
  compute_daily_true_occupancy adm beds_ref ds de
  = Ok ((λ c, attach_occupancy (mkMerged c (capacity_of beds_ref (census_key c))))
        <$> census_frame adm (date_range ds de)).
Proof.
  intros Hle Hu. rewrite compute_nonempty_window by done.
  rewrite merge_left_unique by done. by rewrite <- list_fmap_compose.
Qed.

(** C2. Coverage: for a window with [date_start <= date_end] and a group
    present in the input, the rows of the output for that group are exactly
    one per calendar day of the window, in order: their dates are the days
    of the window, so there are [(date_end - date_start) + 1] of them, none
    missing and none twice, whatever their census.  The capacity reference
    holds at most one record per (hospital, unit) pair, as the data model
    has it. *)
Theorem coverage (adm : list Encounter) (beds_ref : list CapacityRecord)
    (date_start date_end : Z) (e : Encounter) :
  e ∈ adm → date_start <= date_end → capacity_unique beds_ref →
  ∃ out,
    compute_daily_true_occupancy adm beds_ref date_start date_end = Ok out ∧
    p_date <$> filter (λ p, point_key p = enc_key e) out = date_range date_start date_end ∧
    length (filter (λ p, point_key p = enc_key e) out) = Z.to_nat (date_end - date_start + 1) ∧
    NoDup (p_date <$> filter (λ p, point_key p = enc_key e) out) ∧
    ∀ D, D ∈ p_date <$> filter (λ p, point_key p = enc_key e) out ↔ date_start <= D <= date_end.
Proof.
  intros He Hle Hu. eexists. split; [by apply compute_unique|].
  assert (Hrows : p_date <$> filter (λ p, point_key p = enc_key e)
            ((λ c, attach_occupancy (mkMerged c (capacity_of beds_ref (census_key c))))
             <$> census_frame adm (date_range date_start date_end))
          = date_range date_start date_end).
  { rewrite filter_fmap.
    assert (Hk : enc_key e ∈ group_keys adm) by (apply elem_of_group_keys; by exists e).
    rewrite (list_filter_iff _ (λ c, census_key c = enc_key e)) by done.
    rewrite (census_frame_group adm (date_range date_start date_end) _ Hk).
    unfold census_list. rewrite <- !list_fmap_compose. apply list_fmap_id. }
  split; [done|]. split_and!.
  - rewrite <- (length_fmap p_date), Hrows. by apply length_date_range.
  - rewrite Hrows. apply NoDup_date_range.
  - intros D. rewrite Hrows. apply elem_of_date_range.
Qed.

Lemma coverage_witness :
  ∃ out,
    compute_daily_true_occupancy [icu_stay; clinic_visit] [mkCapacity "General" "ICU" 2]
      19723 19725 = Ok out ∧
    p_date <$> filter (λ p, point_key p = enc_key icu_stay) out = date_range 19723 19725 ∧
    length (filter (λ p, point_key p = enc_key icu_stay) out) = Z.to_nat (19725 - 19723 + 1) ∧
    NoDup (p_date <$> filter (λ p, point_key p = enc_key icu_stay) out) ∧
    ∀ D, D ∈ p_date <$> filter (λ p, point_key p = enc_key icu_stay) out ↔ 19723 <= D <= 19725.
Proof.
  apply (coverage [icu_stay; clinic_visit] [mkCapacity "General" "ICU" 2] 19723 19725 icu_stay).
  - left.
  - lia.
  - unfold capacity_unique. simpl. apply NoDup_singleton.
Defined.

(** Outside the data model: a capacity reference with two records for one
    pair repeats every row of the group, as a left merge does. *)
Example duplicate_capacity_repeats_rows :
  compute_daily_true_occupancy [icu_stay]
    [mkCapacity "General" "ICU" 2; mkCapacity "General" "ICU" 4] 19723 19723
  = Ok [ mkPoint "General" "ICU" 19723 1 2 (Fin 50);
         mkPoint "General" "ICU" 19723 1 4 (Fin 25) ].
Proof. vm_compute. reflexivity. Qed.

(** The guard of the code is [staffed_beds > 0]: whatever the bed count,
    the ratio is the undefined marker exactly when it is not positive. *)
Lemma occ_pct_of_nan_guard census_v staffed :
  occ_pct_of census_v staffed = NaN ↔ staffed <= 0.
Proof.
  unfold occ_pct_of, np_where. destruct (0 <? staffed) eqn:Hpos.
  - apply Z.ltb_lt in Hpos. split; [|lia]. unfold F.div, F.of_int, F.qsgn. simpl.
    destruct (Z.sgn staffed =? 0) eqn:Hz; [apply Z.eqb_eq in Hz; lia|]. simpl. done.
  - apply Z.ltb_ge in Hpos. by split.
Qed.

Lemma occ_pct_of_nan census_v staffed :
  0 <= staffed → (occ_pct_of census_v staffed = NaN ↔ staffed = 0).
Proof. intros Hs. rewrite occ_pct_of_nan_guard. lia. Qed.

Lemma occ_pct_of_defined census_v staffed :
  0 < staffed →
  occ_pct_of census_v staffed
  = F.mul (F.div (F.of_int census_v) (F.of_int staffed)) (F.of_int 100).
Proof. intros Hs. unfold occ_pct_of, np_where. by rewrite (proj2 (Z.ltb_lt _ _) Hs). Qed.

(** C3. Capacity join: with a well-formed capacity reference (one record
    per pair, no negative bed count) every row of the output carries the bed
    count of the record of its (hospital, unit) pair, or 0 when the
    reference has no such record; [occ_pct] is NaN exactly when the bed count
    is 0, and otherwise is census over beds times 100; and every group of
    the input has its row for every day of the window, matched or not. *)
Theorem capacity_join (adm : list Encounter) (beds_ref : list CapacityRecord)
    (date_start date_end : Z) :
  capacity_unique beds_ref → capacity_nonneg beds_ref → date_start <= date_end →
  ∃ out,
    compute_daily_true_occupancy adm beds_ref date_start date_end = Ok out ∧
    (∀ (e : Encounter) D, e ∈ adm → date_start <= D <= date_end →
       ∃ p, p ∈ out ∧ point_key p = enc_key e ∧ p_date p = D) ∧
    (∀ p, p ∈ out →
       (∀ b, b ∈ beds_ref → cap_key b = point_key p →
             staffed_beds p = baseline_staffed_beds b) ∧
       ((∀ b, b ∈ beds_ref → cap_key b ≠ point_key p) → staffed_beds p = 0) ∧
       (occ_pct p = NaN ↔ staffed_beds p = 0) ∧
       (staffed_beds p ≠ 0 →
        occ_pct p
        = F.mul (F.div (F.of_int (census p)) (F.of_int (staffed_beds p))) (F.of_int 100))).
Proof.
  intros Hu Hnn Hle. eexists. split; [by apply compute_nonempty_window|]. split.
  - intros e D He HD. apply output_covers; [done|by apply elem_of_date_range].
  - intros p Hp. apply elem_of_output in Hp as (_ & _ & _ & Hocc & Hbeds).
    assert (Hs : 0 <= staffed_beds p).
    { destruct Hbeds as [[-> _]|(b & Hb & _ & ->)]; [done|].
      unfold capacity_nonneg in Hnn. rewrite Forall_forall in Hnn. by apply Hnn. }
    split_and!.
    + intros b Hb Hk. destruct Hbeds as [[_ Hno]|(b' & Hb' & Hk' & ->)].
      * by apply Hno in Hb.
      * pose proof (capacity_of_elem beds_ref b Hu Hb) as H1.
        pose proof (capacity_of_elem beds_ref b' Hu Hb') as H2.
        rewrite Hk in H1. rewrite Hk' in H2. congruence.
    + intros Hno. destruct Hbeds as [[-> _]|(b & Hb & Hk & _)]; [done|].
      by apply Hno in Hb.
    + rewrite Hocc. by apply occ_pct_of_nan.
    + intros Hne. rewrite Hocc. apply occ_pct_of_defined. lia.
Qed.

Lemma capacity_join_witness :
  ∃ out,
    compute_daily_true_occupancy [icu_stay] [mkCapacity "General" "ICU" 2] 19723 19725 = Ok out ∧
    (∀ (e : Encounter) D, e ∈ [icu_stay] → 19723 <= D <= 19725 →
       ∃ p, p ∈ out ∧ point_key p = enc_key e ∧ p_date p = D) ∧
    (∀ p, p ∈ out →
       (∀ b, b ∈ [mkCapacity "General" "ICU" 2] → cap_key b = point_key p →
             staffed_beds p = baseline_staffed_beds b) ∧
       ((∀ b, b ∈ [mkCapacity "General" "ICU" 2] → cap_key b ≠ point_key p) →
        staffed_beds p = 0) ∧
       (occ_pct p = NaN ↔ staffed_beds p = 0) ∧
       (staffed_beds p ≠ 0 →
        occ_pct p
        = F.mul (F.div (F.of_int (census p)) (F.of_int (staffed_beds p))) (F.of_int 100))).
Proof.
  apply (capacity_join [icu_stay] [mkCapacity "General" "ICU" 2] 19723 19725).
  - unfold capacity_unique. simpl. apply NoDup_singleton.
  - unfold capacity_nonneg. apply Forall_singleton. simpl. lia.
  - lia.
Defined.

(** ** The proxy occupancy *)

Lemma elem_of_daily_arrivals adm a :
  a ∈ daily_arrivals adm →
  ∃ e : Encounter, e ∈ adm ∧ enc_day_key e = Some (arrival_key a, a_date a) ∧
    arrivals a
    = Z.of_nat (length (filter (λ e, enc_day_key e = Some (arrival_key a, a_date a)) adm)).
Proof.
  unfold daily_arrivals. intros (k & -> & Hk)%list_elem_of_fmap.
  rewrite merge_sort_Permutation, elem_of_remove_dups, list_elem_of_omap in Hk.
  destruct Hk as (e & He & Hke). exists e. destruct k as [[h u] d]. done.
Qed.

Lemma arrivals_positive adm a : a ∈ daily_arrivals adm → 1 <= arrivals a.
Proof.
  intros (e & He & Hk & ->)%elem_of_daily_arrivals.
  assert (Hin : e ∈ filter (λ e, enc_day_key e = Some (arrival_key a, a_date a)) adm)
    by (by apply list_elem_of_filter).
  destruct (filter _ adm); [by apply not_elem_of_nil in Hin|]. simpl. lia.
Qed.

Lemma occ_proxy_of_zero_beds (m : Merged ArrivalRow) :
  1 <= arrivals (m_row m) → m_baseline m = Some 0 → occ_proxy_of m = Fin (12 # 10).
Proof.
  intros Ha Hb. unfold occ_proxy_of. rewrite Hb. unfold F.of_cell, F.of_int, F.div, F.qsgn.
  simpl. destruct (arrivals (m_row m)) as [|n|n]; [lia|done|lia].
Qed.

Lemma occ_proxy_of_missing_beds (m : Merged ArrivalRow) :
  m_baseline m = None → occ_proxy_of m = NaN.
Proof. intros Hb. unfold occ_proxy_of. rewrite Hb. simpl. by destruct (arrivals (m_row m)). Qed.

(** C4 (the proxy ratio, as the code computes it): a row whose capacity
    record has 0 staffed beds gets [arrivals / 0 = inf], which the cap at
    1.2 turns into the finite value 1.2; the ratio is not the undefined
    marker there. *)
Theorem proxy_ratio_zero_beds_is_capped (adm : list Encounter)
    (beds_ref : list CapacityRecord) (m : Merged ArrivalRow) (v : float64) :
  (m, v) ∈ occ_proxy adm beds_ref → m_baseline m = Some 0 →
  v = Fin (12 # 10) ∧ F.is_nan v = false.
Proof.
  unfold occ_proxy. intros (m' & [= <- ->] & Hm)%list_elem_of_fmap Hb.
  apply elem_of_merge_left in Hm as [Ha _]. apply arrivals_positive in Ha.
  by rewrite occ_proxy_of_zero_beds.
Qed.

Lemma proxy_ratio_zero_beds_is_capped_witness :
  (mkMerged (mkArrival "General" "ICU" 19723 1) (Some 0), Fin (12 # 10))
    ∈ occ_proxy [icu_stay] [mkCapacity "General" "ICU" 0] ∧
  Fin (12 # 10) = Fin (12 # 10) ∧ F.is_nan (Fin (12 # 10)) = false.
Proof.
  assert (Hin : (mkMerged (mkArrival "General" "ICU" 19723 1) (Some 0), Fin (12 # 10))
                  ∈ occ_proxy [icu_stay] [mkCapacity "General" "ICU" 0])
    by (vm_compute; left).
  split; [exact Hin|].
  apply (proxy_ratio_zero_beds_is_capped [icu_stay] [mkCapacity "General" "ICU" 0]
           (mkMerged (mkArrival "General" "ICU" 19723 1) (Some 0)) (Fin (12 # 10)) Hin).
  reflexivity.
Defined.

(** The sibling ratio: the true occupancy of a row without staffed beds is
    the undefined marker, and so is the proxy ratio of a row without a
    capacity record. *)
Lemma true_ratio_zero_beds_is_nan census_v : occ_pct_of census_v 0 = NaN.
Proof. done. Qed.

Lemma proxy_ratio_missing_beds_is_nan adm beds_ref (m : Merged ArrivalRow) v :
  (m, v) ∈ occ_proxy adm beds_ref → m_baseline m = None → v = NaN.
Proof.
  unfold occ_proxy. intros (m' & [= <- ->] & Hm)%list_elem_of_fmap Hb.
  by apply occ_proxy_of_missing_beds.
Qed.

(** ** Admissions per day *)

Lemma elem_of_admit_days adm d :
  d ∈ admit_days adm ↔ ∃ e : Encounter, e ∈ adm ∧ admit_d e = Some d.
Proof.
  unfold admit_days. by rewrite merge_sort_Permutation, elem_of_remove_dups, list_elem_of_omap.
Qed.

Lemma NoDup_admit_days adm : NoDup (admit_days adm).
Proof. unfold admit_days. rewrite merge_sort_Permutation. apply NoDup_remove_dups. Qed.

Lemma admitted_on_positive adm d :
  1 <= admitted_on d adm ↔ ∃ e : Encounter, e ∈ adm ∧ admit_d e = Some d.
Proof.
  unfold admitted_on. split.
  - destruct (filter (λ e, admit_d e = Some d) adm) as [|e l] eqn:Hf; simpl; [lia|].
    intros _. exists e.
    assert (Hin : e ∈ filter (λ e, admit_d e = Some d) adm) by (rewrite Hf; left).
    apply list_elem_of_filter in Hin as [? ?]. done.
  - intros (e & He & Hd).
    assert (Hin : e ∈ filter (λ e, admit_d e = Some d) adm) by (by apply list_elem_of_filter).
    destruct (filter _ adm); [by apply not_elem_of_nil in Hin|]. simpl. lia.
Qed.

(** The days the grouping yields are the days of any calendar covering the
    admissions on which something was admitted. *)
Lemma admit_days_active_days calendar adm :
  NoDup calendar →
  (∀ (e : Encounter) d, e ∈ adm → admit_d e = Some d → d ∈ calendar) →
  admit_days adm ≡ₚ active_days calendar adm.
Proof.
  intros Hnd Hcover. apply NoDup_Permutation.
  - apply NoDup_admit_days.
  - unfold active_days. by apply NoDup_filter.
  - intros d. unfold active_days. rewrite list_elem_of_filter, elem_of_admit_days,
      admitted_on_positive. split.
    + intros (e & He & Hd). split; [by exists e|by eapply Hcover].
    + by intros [H _].
Qed.

Lemma sum_Permutation (l1 l2 : list Z) :
  l1 ≡ₚ l2 → foldr Z.add 0 l1 = foldr Z.add 0 l2.
Proof. induction 1; simpl; lia. Qed.

Lemma mean_int_Permutation (l1 l2 : list Z) : l1 ≡ₚ l2 → F.mean_int l1 = F.mean_int l2.
Proof.
  intros Hp. unfold F.mean_int.
  by rewrite (sum_Permutation l1 l2 Hp), (Permutation_length Hp).
Qed.

(** C8. Admissions per day: for a non-empty encounter set the KPI is the
    mean of the per-day admission counts over the days that saw at least
    one admission; [calendar] is any duplicate-free list of days containing
    the admission days (the requested window, say), and its days without
    admission do not enter the mean. *)
Theorem admissions_per_day_active_days_only (adm : list Encounter) (calendar : list Z) :
  adm ≠ [] → NoDup calendar →
  (∀ (e : Encounter) d, e ∈ adm → admit_d e = Some d → d ∈ calendar) →
  admissions_per_day adm = mean_over_active_days calendar adm.
Proof.
  intros Hne Hnd Hcover. unfold admissions_per_day, mean_over_active_days.
  destruct adm as [|e0 adm0]; [done|]. unfold admissions_by_day.
  rewrite <- list_fmap_compose. apply mean_int_Permutation.
  change (snd ∘ (λ d, (d, admitted_on d (e0 :: adm0)))) with (λ d, admitted_on d (e0 :: adm0)).
  apply fmap_Permutation. by apply admit_days_active_days.
Qed.

Lemma admissions_per_day_active_days_only_witness :
  admissions_per_day [icu_stay; icu_stay; clinic_visit]
  = mean_over_active_days (date_range 19720 19729) [icu_stay; icu_stay; clinic_visit].
Proof.
  apply (admissions_per_day_active_days_only [icu_stay; icu_stay; clinic_visit]
           (date_range 19720 19729)).
  - discriminate.
  - apply NoDup_date_range.
  - intros e d He Hd. apply elem_of_date_range.
    repeat (apply elem_of_cons in He as [->|He]); [vm_compute in Hd..|by apply not_elem_of_nil in He];
      injection Hd as <-; lia.
Defined.

(** The KPI of the example is 1.5 admissions per day with admissions, where
    the daily rate over the ten days of the window is 0.3. *)
Example admissions_per_day_is_not_the_daily_rate :
  admissions_per_day [icu_stay; icu_stay; clinic_visit] = Fin (3 # 2) ∧
  mean_over_all_days (date_range 19720 19729) [icu_stay; icu_stay; clinic_visit] = Fin (3 # 10).
Proof. split; vm_compute; reflexivity. Qed.

(** ** The query layer *)

Lemma sql_and_true a b : sql_and a b = Some true ↔ a = Some true ∧ b = Some true.
Proof. destruct a as [[]|], b as [[]|]; simpl; split; intros H; by destruct_and?. Qed.

Lemma sql_where_Forall {A} (conds : list (A → sql_bool)) (r : A) :
  sql_where conds r = true ↔ Forall (λ c, c r = Some true) conds.
Proof.
  unfold sql_where.
  assert (Hfold : ∀ acc, foldl (λ acc c, sql_and acc (c r)) acc conds = Some true
                         ↔ acc = Some true ∧ Forall (λ c, c r = Some true) conds).
  { induction conds as [|c conds IH]; intros acc; simpl.
    - split; [intros ->; by split|by intros [-> _]].
    - rewrite IH, sql_and_true, Forall_cons. tauto. }
  specialize (Hfold (Some true)).
  destruct (foldl _ _ conds) as [[]|]; split; try done.
  - intros _. by apply Hfold.
  - intros H. destruct Hfold as [_ Hfold]. by specialize (Hfold (conj eq_refl H)).
  - intros H. destruct Hfold as [_ Hfold]. by specialize (Hfold (conj eq_refl H)).
Qed.

Section QueryProperties.

Variable sqlite_date : option string → option Z.
Variable to_datetime : option string → datetime64.

Lemma sql_where_passes_filters date_from date_to hospital_p unit_p (r : StoredAdmission) :
  sql_where (conditions sqlite_date date_from date_to hospital_p unit_p) r = true
  ↔ passes_filters sqlite_date date_from date_to hospital_p unit_p r.
Proof.
  rewrite sql_where_Forall. unfold conditions, passes_filters.
  rewrite !Forall_app, Forall_singleton.
  assert (Hfrom : Forall (λ c : StoredAdmission → sql_bool, c r = Some true)
            match date_from with
            | Some d => [λ r, sql_ge (sqlite_date (admit_ts r)) (Some d)]
            | None => []
            end ↔ within date_from Z.le (sqlite_date (admit_ts r))).
  { destruct date_from as [d|]; simpl; [|by split].
    rewrite Forall_singleton. destruct (sqlite_date (admit_ts r)) as [a|]; simpl; [|done].
    split; [intros [= H]; by apply Z.leb_le|intros H; f_equal; by apply Z.leb_le]. }
  assert (Hto : Forall (λ c : StoredAdmission → sql_bool, c r = Some true)
            match date_to with
            | Some d => [λ r, sql_le (sqlite_date (admit_ts r)) (Some d)]
            | None => []
            end ↔ within date_to Z.ge (sqlite_date (admit_ts r))).
  { destruct date_to as [d|]; simpl; [|by split].
    rewrite Forall_singleton. destruct (sqlite_date (admit_ts r)) as [a|]; simpl; [|done].
    split; [intros [= H]; apply Z.leb_le in H; lia|intros H; f_equal; apply Z.leb_le; lia]. }
  assert (Hparam : ∀ (p : option string) (col : StoredAdmission → string),
            Forall (λ c : StoredAdmission → sql_bool, c r = Some true)
              match p with
              | Some s => if decide (s ≠ "All") then [λ r, sql_eq (col r) s] else []
              | None => []
              end ↔ matches_param p (col r)).
  { intros [s|] col; simpl; [|by split]. destruct (decide (s ≠ "All")) as [Hs|Hs].
    - rewrite Forall_singleton. unfold sql_eq. split.
      + intros [= H]. right. by apply bool_decide_eq_true in H.
      + intros [H|H]; [done|]. f_equal. by apply bool_decide_eq_true.
    - split; [|done]. intros _. left. by destruct (decide (s = "All")). }
  rewrite Hfrom, Hto, (Hparam hospital_p hospital), (Hparam unit_p unit_id). tauto.
Qed.

(** C9. Query filter semantics: the rows [load_admissions] returns are the
    stored rows, in store order and with their multiplicity, that pass every
    filter given: a date bound compares with the calendar date of [admit_ts]
    alone, a hospital or unit parameter that is [None] or ["All"] filters
    nothing, and the discharge cell of a row has no say. *)
Theorem load_admissions_filter_semantics (store : list StoredAdmission)
    (date_from date_to : option Z) (hospital_p unit_p : option string) :
  load_admissions sqlite_date to_datetime store date_from date_to hospital_p unit_p
  = coerce_timestamps to_datetime
    <$> filter (passes_filters sqlite_date date_from date_to hospital_p unit_p) store
  ∧ load_admissions sqlite_date to_datetime store date_from date_to (Some "All") unit_p
    = load_admissions sqlite_date to_datetime store date_from date_to None unit_p
  ∧ load_admissions sqlite_date to_datetime store date_from date_to hospital_p (Some "All")
    = load_admissions sqlite_date to_datetime store date_from date_to hospital_p None
  ∧ ∀ (r : StoredAdmission) ts,
      sql_where (conditions sqlite_date date_from date_to hospital_p unit_p) (with_discharge ts r)
      = sql_where (conditions sqlite_date date_from date_to hospital_p unit_p) r.
Proof.
  split_and!.
  - unfold load_admissions. f_equal. apply list_filter_iff. intros r.
    apply sql_where_passes_filters.
  - done.
  - unfold load_admissions, conditions. simpl. done.
  - intros r ts. unfold sql_where, conditions.
    destruct date_from, date_to, hospital_p as [h|], unit_p as [u|]; simpl;
      repeat case_decide; reflexivity.
Qed.

(** C5. Malformed or missing timestamps: a stored row the query selects
    comes back from [load_admissions] with each timestamp cell that does not
    parse set to NaT; such an encounter is present on no day, and the census
    of every output row of [compute_daily_true_occupancy] is what the other
    encounters of the collection give. *)
Theorem malformed_timestamps_coerced_and_excluded (store : list StoredAdmission)
    (date_from date_to : option Z) (hospital_p unit_p : option string)
    (r : StoredAdmission) :
  r ∈ store →
  passes_filters sqlite_date date_from date_to hospital_p unit_p r →
  to_datetime (admit_ts r) = None ∨ to_datetime (discharge_ts r) = None →
  coerce_timestamps to_datetime r
    ∈ load_admissions sqlite_date to_datetime store date_from date_to hospital_p unit_p ∧
  (to_datetime (admit_ts r) = None → admit_ts (coerce_timestamps to_datetime r) = None) ∧
  (to_datetime (discharge_ts r) = None →
   discharge_ts (coerce_timestamps to_datetime r) = None) ∧
  (∀ D, present_on D (coerce_timestamps to_datetime r) = false) ∧
  (∀ adm_l adm_r beds_ref date_start date_end,
     date_start <= date_end →
     ∃ out,
       compute_daily_true_occupancy (adm_l ++ coerce_timestamps to_datetime r :: adm_r)
         beds_ref date_start date_end = Ok out ∧
       ∀ p, p ∈ out →
            census p = census_count (group_of (point_key p) (adm_l ++ adm_r)) (p_date p)).
Proof.
  intros Hr Hpass Hbad.
  assert (Habsent : ∀ D, present_on D (coerce_timestamps to_datetime r) = false).
  { intros D. apply present_on_invalid. simpl. done. }
  split_and!; try done.
  - unfold load_admissions. apply list_elem_of_fmap. exists r. split; [done|].
    apply list_elem_of_filter. split; [|done]. by apply sql_where_passes_filters.
  - intros adm_l adm_r beds_ref date_start date_end Hwin.
    eexists. split; [by apply compute_nonempty_window|].
    intros p Hp. apply census_without in Hp as [_ ->].
    rewrite Habsent, andb_false_r. lia.
Qed.

End QueryProperties.

Lemma malformed_timestamps_coerced_and_excluded_witness :
  coerce_timestamps sample_to_datetime stored_garbled
    ∈ load_admissions sample_sqlite_date sample_to_datetime [stored_icu_stay; stored_garbled]
        (Some 19723) (Some 19725) (Some "All") (Some "ICU") ∧
  (sample_to_datetime (admit_ts stored_garbled) = None →
   admit_ts (coerce_timestamps sample_to_datetime stored_garbled) = None) ∧
  (sample_to_datetime (discharge_ts stored_garbled) = None →
   discharge_ts (coerce_timestamps sample_to_datetime stored_garbled) = None) ∧
  (∀ D, present_on D (coerce_timestamps sample_to_datetime stored_garbled) = false) ∧
  (∀ adm_l adm_r beds_ref date_start date_end,
     date_start <= date_end →
     ∃ out,
       compute_daily_true_occupancy
         (adm_l ++ coerce_timestamps sample_to_datetime stored_garbled :: adm_r)
         beds_ref date_start date_end = Ok out ∧
       ∀ p, p ∈ out →
            census p = census_count (group_of (point_key p) (adm_l ++ adm_r)) (p_date p)).
Proof.
  apply (malformed_timestamps_coerced_and_excluded sample_sqlite_date sample_to_datetime
           [stored_icu_stay; stored_garbled] (Some 19723) (Some 19725) (Some "All") (Some "ICU")
           stored_garbled).
  - right. left.
  - vm_compute. repeat split; (lia || (right; reflexivity) || (left; reflexivity) || discriminate).
  - right. reflexivity.
Defined.

(** The garbled row is in the frame the census engine gets, and its group
    shows the stay of the other row only. *)
Example garbled_row_is_loaded_but_not_counted :
  compute_daily_true_occupancy
    (load_admissions sample_sqlite_date sample_to_datetime [stored_icu_stay; stored_garbled]
       (Some 19723) (Some 19725) None None)
    [] 19723 19725
  = Ok [ mkPoint "General" "ICU" 19723 1 0 NaN;
         mkPoint "General" "ICU" 19724 1 0 NaN;
         mkPoint "General" "ICU" 19725 0 0 NaN ].
Proof. vm_compute. reflexivity. Qed.

(** ** Objects and mutation *)

Section Keeps.

Variable σ0 : gmap loc frame.

Lemma keeps_ret {A} (a : A) (Q : A → Prop) : Q a → keeps σ0 (mret a) Q.
Proof. intros HQ σ Hσ. simpl. split; [done|]. by intros a' [= <-]. Qed.

Lemma keeps_raise {A} (e : exn) (Q : A → Prop) : keeps σ0 (py_raise e) Q.
Proof. intros σ Hσ. simpl. split; [done|]. by intros a'. Qed.

Lemma keeps_bind {A B} (m : PY A) (f : A → PY B) (P : A → Prop) (Q : B → Prop) :
  keeps σ0 m P → (∀ a, P a → keeps σ0 (f a) Q) → keeps σ0 (m ≫= f) Q.
Proof.
  intros Hm Hf σ Hσ. destruct (Hm σ Hσ) as [Hsub HP].
  unfold mbind, py_bind. destruct (m σ) as [[a|e] σ']; simpl in *.
  - by apply Hf; [apply HP|].
  - split; [done|]. by intros b.
Qed.

Lemma keeps_weaken {A} (m : PY A) (P Q : A → Prop) :
  keeps σ0 m P → (∀ a, P a → Q a) → keeps σ0 m Q.
Proof. intros Hm HPQ σ Hσ. destruct (Hm σ Hσ) as [Hsub HP]. split; [done|]. eauto. Qed.

Lemma keeps_alloc (f : frame) : keeps σ0 (py_alloc f) (new_object σ0).
Proof.
  intros σ Hσ. unfold py_alloc. simpl.
  assert (Hfresh : σ !! fresh (dom σ) = None) by (apply not_elem_of_dom, is_fresh).
  assert (Hnew : σ0 !! fresh (dom σ) = None) by (by eapply lookup_weaken_None).
  split; [by apply insert_subseteq_r|]. by intros l [= <-].
Qed.

Lemma keeps_read (l : loc) : keeps σ0 (py_read l) (λ _, True).
Proof. intros σ Hσ. unfold py_read. by destruct (σ !! l). Qed.

Lemma keeps_write (l : loc) (f : frame) :
  new_object σ0 l → keeps σ0 (py_write l f) (λ _, True).
Proof. intros Hl σ Hσ. unfold py_write. simpl. split; [by apply insert_subseteq_r|done]. Qed.

Lemma keeps_mapM {A B} (f : A → PY B) (P : B → Prop) (l : list A) :
  (∀ x, keeps σ0 (f x) P) → keeps σ0 (mapM f l) (Forall P).
Proof.
  intros Hf. induction l as [|x l IH]; simpl.
  - by apply keeps_ret.
  - eapply keeps_bind; [apply Hf|]. intros y Hy.
    eapply keeps_bind; [apply IH|]. intros k Hk.
    apply keeps_ret. by constructor.
Qed.

Lemma keeps_copy (l : loc) : keeps σ0 (py_copy l) (new_object σ0).
Proof.
  unfold py_copy. eapply keeps_bind; [apply keeps_read|]. intros f _. apply keeps_alloc.
Qed.

Lemma keeps_set_admit_d (df : loc) : new_object σ0 df → keeps σ0 (py_set_admit_d df) (λ _, True).
Proof.
  intros Hdf. unfold py_set_admit_d. eapply keeps_bind; [apply keeps_read|].
  intros [] _; (by apply keeps_write) || apply keeps_raise.
Qed.

Lemma keeps_set_discharge_d (df : loc) :
  new_object σ0 df → keeps σ0 (py_set_discharge_d df) (λ _, True).
Proof.
  intros Hdf. unfold py_set_discharge_d. eapply keeps_bind; [apply keeps_read|].
  intros [] _; (by apply keeps_write) || apply keeps_raise.
Qed.

Lemma keeps_groups (df : loc) (days : list Z) :
  keeps σ0 (py_groups df days) (Forall (new_object σ0)).
Proof.
  unfold py_groups. eapply keeps_bind; [apply keeps_read|].
  intros [rows [ad|] [dd|]| | |] _; try apply keeps_raise.
  apply keeps_mapM. intros k. apply keeps_alloc.
Qed.

Lemma keeps_read_census (l : loc) : keeps σ0 (py_read_census l) (λ _, True).
Proof.
  unfold py_read_census. eapply keeps_bind; [apply keeps_read|].
  intros [] _; (by apply keeps_ret) || apply keeps_raise.
Qed.

Lemma keeps_concat (groups : list loc) : keeps σ0 (py_concat groups) (new_object σ0).
Proof.
  unfold py_concat. eapply keeps_bind; [apply keeps_mapM, keeps_read_census|].
  intros frames _. apply keeps_alloc.
Qed.

Lemma keeps_merge (census_l beds_l : loc) : keeps σ0 (py_merge census_l beds_l) (new_object σ0).
Proof.
  unfold py_merge. eapply keeps_bind; [apply keeps_read|]. intros c _.
  eapply keeps_bind; [apply keeps_read|]. intros b _.
  destruct c as [| |[|r rs]|]; try apply keeps_raise.
  destruct b; try apply keeps_raise. apply keeps_alloc.
Qed.

Lemma keeps_rename_inplace (out : loc) :
  new_object σ0 out → keeps σ0 (py_rename_inplace out) (λ _, True).
Proof.
  intros Hout. unfold py_rename_inplace. eapply keeps_bind; [apply keeps_read|].
  intros [] _; (by apply keeps_write) || by apply keeps_ret.
Qed.

Lemma keeps_set_staffed_beds (out : loc) :
  new_object σ0 out → keeps σ0 (py_set_staffed_beds out) (λ _, True).
Proof.
  intros Hout. unfold py_set_staffed_beds. eapply keeps_bind; [apply keeps_read|].
  intros [] _; try apply keeps_raise. case_decide; [by apply keeps_write|apply keeps_raise].
Qed.

Lemma keeps_set_occ_pct (out : loc) :
  new_object σ0 out → keeps σ0 (py_set_occ_pct out) (λ _, True).
Proof.
  intros Hout. unfold py_set_occ_pct. eapply keeps_bind; [apply keeps_read|].
  intros [] _; try apply keeps_raise. case_decide; [by apply keeps_write|apply keeps_raise].
Qed.

(** The whole function writes to objects of its own making only, and what
    it returns is one of them. *)
Lemma keeps_compute (adm beds_ref : loc) (date_start date_end : Z) :
  keeps σ0 (compute_daily_true_occupancy_py adm beds_ref date_start date_end) (new_object σ0).
Proof.
  unfold compute_daily_true_occupancy_py. eapply keeps_bind; [apply keeps_read|].
  intros a _. destruct (frame_empty a); [apply keeps_alloc|].
  eapply keeps_bind; [apply keeps_copy|]. intros df Hdf.
  eapply keeps_bind; [by apply keeps_set_admit_d|]. intros _ _.
  eapply keeps_bind; [by apply keeps_set_discharge_d|]. intros _ _.
  eapply keeps_bind; [apply keeps_groups|]. intros groups _.
  eapply keeps_bind; [apply keeps_concat|]. intros census_l _.
  eapply keeps_bind; [apply keeps_merge|]. intros out Hout.
  eapply keeps_bind; [by apply keeps_rename_inplace|]. intros _ _.
  eapply keeps_bind; [by apply keeps_set_staffed_beds|]. intros _ _.
  eapply keeps_bind; [by apply keeps_set_occ_pct|]. intros _ _.
  by apply keeps_ret.
Qed.

End Keeps.

(** C10. Input preservation: the frames the arguments [adm] and [beds_ref]
    refer to hold after the call what they held before it, whether the call
    returns or raises; so does every other object that was live, and the
    frame returned is a new object, neither of the two arguments. *)
Theorem inputs_preserved (σ : gmap loc frame) (adm beds_ref : loc) (a b : frame)
    (date_start date_end : Z) :
  σ !! adm = Some a → σ !! beds_ref = Some b →
  (compute_daily_true_occupancy_py adm beds_ref date_start date_end σ).2 !! adm = Some a ∧
  (compute_daily_true_occupancy_py adm beds_ref date_start date_end σ).2 !! beds_ref = Some b ∧
  σ ⊆ (compute_daily_true_occupancy_py adm beds_ref date_start date_end σ).2 ∧
  ∀ out, (compute_daily_true_occupancy_py adm beds_ref date_start date_end σ).1 = Ok out →
         out ≠ adm ∧ out ≠ beds_ref.
Proof.
  intros Ha Hb.
  destruct (keeps_compute σ adm beds_ref date_start date_end σ) as [Hsub Hnew]; [done|].
  split_and!.
  - by eapply lookup_weaken.
  - by eapply lookup_weaken.
  - done.
  - intros out Hout. apply Hnew in Hout. unfold new_object in Hout.
    split; intros ->; congruence.
Qed.

Lemma inputs_preserved_witness :
  (compute_daily_true_occupancy_py 1%positive 2%positive 19723 19725 sample_heap).2 !! 1%positive
  = Some (EncFrame [icu_stay] None None) ∧
  (compute_daily_true_occupancy_py 1%positive 2%positive 19723 19725 sample_heap).2 !! 2%positive
  = Some (CapFrame [mkCapacity "General" "ICU" 2]) ∧
  sample_heap ⊆ (compute_daily_true_occupancy_py 1%positive 2%positive 19723 19725 sample_heap).2 ∧
  ∀ out, (compute_daily_true_occupancy_py 1%positive 2%positive 19723 19725 sample_heap).1 = Ok out →
         out ≠ 1%positive ∧ out ≠ 2%positive.
Proof.
  apply (inputs_preserved sample_heap 1%positive 2%positive
           (EncFrame [icu_stay] None None) (CapFrame [mkCapacity "General" "ICU" 2])
           19723 19725).
  - vm_compute. reflexivity.
  - vm_compute. reflexivity.
Defined.

(** The call on the sample heap returns a frame holding the points of the
    running example. *)
Example compute_py_on_sample_heap :
  let run := compute_daily_true_occupancy_py 1%positive 2%positive 19723 19725 sample_heap in
  match run.1 with
  | Ok out => (run.2 !! out) ≫= frame_points
  | Raise _ => None
  end
  = Some [ mkPoint "General" "ICU" 19723 1 2 (Fin 50);
           mkPoint "General" "ICU" 19724 1 2 (Fin 50);
           mkPoint "General" "ICU" 19725 0 2 (Fin 0) ].
Proof. vm_compute. reflexivity. Qed.

(** Without the copy the date columns would land in the caller's frame. *)
Example set_admit_d_mutates_its_argument :
  (py_set_admit_d 1%positive sample_heap).2 !! 1%positive
  = Some (EncFrame [icu_stay] (Some [Some 19723]) None).
Proof. vm_compute. reflexivity. Qed.

(** ** The function on references computes the function on values *)

Lemma runs_bind {A B} (m : PY A) (f : A → PY B) σ a σ1 r σ2 :
  runs m σ (Ok a) σ1 → runs (f a) σ1 r σ2 → runs (m ≫= f) σ r σ2.
Proof. unfold runs, mbind, py_bind. by intros -> ->. Qed.

Lemma runs_bind_raise {A B} (m : PY A) (f : A → PY B) σ e σ1 :
  runs m σ (Raise e) σ1 → runs (m ≫= f) σ (Raise e) σ1.
Proof. unfold runs, mbind, py_bind. by intros ->. Qed.

Lemma runs_ret {A} (a : A) σ : runs (mret a) σ (Ok a) σ.
Proof. done. Qed.

Lemma runs_read l σ f : σ !! l = Some f → runs (py_read l) σ (Ok f) σ.
Proof. unfold runs, py_read. by intros ->. Qed.

Lemma runs_alloc f σ : runs (py_alloc f) σ (Ok (fresh (dom σ))) (<[fresh (dom σ) := f]> σ).
Proof. done. Qed.

Lemma runs_write l f σ : runs (py_write l f) σ (Ok ()) (<[l := f]> σ).
Proof. done. Qed.

Lemma fresh_lookup (σ : gmap loc frame) : σ !! fresh (dom σ) = None.
Proof. apply not_elem_of_dom, is_fresh. Qed.

(** The outer loop leaves one frame per key, and nothing else changes. *)
Lemma runs_group_loop rows ad dd days keys σ :
  ∃ ls σ',
    runs (mapM (py_group_census rows ad dd days) keys) σ (Ok ls) σ' ∧ σ ⊆ σ' ∧
    Forall2 (λ l k, σ' !! l
                    = Some (CensusFrame (census_list_cells k (group_cells rows ad dd k) days)))
      ls keys.
Proof.
  revert σ. induction keys as [|k keys IH]; intros σ.
  - exists [], σ. split_and!; [apply runs_ret|done|constructor].
  - destruct (IH (<[fresh (dom σ) :=
                     CensusFrame (census_list_cells k (group_cells rows ad dd k) days)]> σ))
      as (ls & σ' & Hrun & Hsub & Hall).
    exists (fresh (dom σ) :: ls), σ'. split_and!.
    + simpl. eapply runs_bind; [apply runs_alloc|].
      eapply runs_bind; [apply Hrun|]. apply runs_ret.
    + etrans; [|apply Hsub]. apply insert_subseteq, fresh_lookup.
    + constructor; [|done]. eapply lookup_weaken; [|apply Hsub]. apply lookup_insert_eq.
Qed.

Lemma runs_read_all ls frames σ :
  Forall2 (λ l fr, σ !! l = Some (CensusFrame fr)) ls frames →
  runs (mapM py_read_census ls) σ (Ok frames) σ.
Proof.
  induction 1 as [|l fr ls frames Hl _ IH]; simpl; [apply runs_ret|].
  eapply runs_bind.
  { unfold py_read_census. eapply runs_bind; [by apply runs_read|]. apply runs_ret. }
  eapply runs_bind; [apply IH|]. apply runs_ret.
Qed.

Lemma group_cells_dates rows k :
  group_cells rows (admit_d <$> rows) (discharge_d <$> rows) k
  = (λ e, (admit_d e, discharge_d e)) <$> group_of k rows.
Proof.
  unfold group_cells, group_of. induction rows as [|e rows IH]; [done|].
  rewrite !fmap_cons. change (zip (e :: rows) (zip (admit_d e :: (admit_d <$> rows))
                                         (discharge_d e :: (discharge_d <$> rows))))
    with ((e, (admit_d e, discharge_d e))
          :: zip rows (zip (admit_d <$> rows) (discharge_d <$> rows))).
  rewrite !filter_cons. cbn [fst]. case_decide; rewrite ?fmap_cons; by rewrite IH.
Qed.

Lemma count_present_dates d (g : list Encounter) :
  count_present d ((λ e, (admit_d e, discharge_d e)) <$> g) = census_count g d.
Proof.
  unfold count_present, census_count. rewrite filter_fmap, length_fmap. done.
Qed.

Lemma census_list_cells_dates rows k days :
  census_list_cells k (group_cells rows (admit_d <$> rows) (discharge_d <$> rows) k) days
  = census_list k (group_of k rows) days.
Proof.
  unfold census_list_cells, census_list. rewrite group_cells_dates.
  apply list_fmap_ext. intros _ d _. by rewrite count_present_dates.
Qed.

Lemma frame_points_attach (merged : list (Merged CensusRow)) :
  frame_points
    (OutFrame ((λ m, mkMerged (m_row m) (Some (fillna0 (m_baseline m)))) <$> merged)
       "staffed_beds"
       (Some ((λ m, occ_pct_of (c_census (m_row m)) (fillna0 (m_baseline m)))
              <$> ((λ m, mkMerged (m_row m) (Some (fillna0 (m_baseline m)))) <$> merged))))
  = Some (attach_occupancy <$> merged).
Proof.
  unfold frame_points. rewrite decide_True by done. f_equal.
  induction merged as [|m merged IH]; [done|].
  rewrite !fmap_cons. cbn [zip_with]. rewrite IH. done.
Qed.

Lemma concat_fmap_bind {A B} (f : A → list B) (l : list A) : concat (f <$> l) = l ≫= f.
Proof. induction l as [|x l IH]; [done|]. by rewrite fmap_cons, bind_cons, <- IH. Qed.

(** The first half of the body: the copy, the two date columns, the loop
    over the groups and the concatenation end in a new frame holding the
    census rows, with every object of the initial heap as it was. *)
Lemma runs_census_prefix (σ : gmap loc frame) (adm : loc) (rows : list Encounter)
    (ad dd : option (list date_cell)) (days : list Z) :
  σ !! adm = Some (EncFrame rows ad dd) →
  ∃ census_l σ5,
    σ ⊆ σ5 ∧ σ5 !! census_l = Some (CensusFrame (census_frame rows days)) ∧
    ∀ B (k : loc → PY B) r σ',
      runs (k census_l) σ5 r σ' →
      runs (df ← py_copy adm;
            _ ← py_set_admit_d df;
            _ ← py_set_discharge_d df;
            groups ← py_groups df days;
            census_l ← py_concat groups;
            k census_l) σ r σ'.
Proof.
  intros Hadm. set (l1 := fresh (dom σ)).
  assert (Hl1 : σ !! l1 = None) by apply fresh_lookup.
  set (σ3 := <[l1 := EncFrame rows (Some (admit_d <$> rows)) (Some (discharge_d <$> rows))]>
               (<[l1 := EncFrame rows (Some (admit_d <$> rows)) dd]>
                  (<[l1 := EncFrame rows ad dd]> σ))).
  assert (Hσ3 : σ ⊆ σ3) by (unfold σ3; by repeat apply insert_subseteq_r).
  destruct (runs_group_loop rows (admit_d <$> rows) (discharge_d <$> rows) days
              (group_keys rows) σ3) as (ls & σ4 & Hloop & Hσ4 & Hframes).
  assert (Hcf : concat ((λ k, census_list_cells k
                    (group_cells rows (admit_d <$> rows) (discharge_d <$> rows) k) days)
                  <$> group_keys rows) = census_frame rows days).
  { rewrite concat_fmap_bind. unfold census_frame. apply list_bind_ext; [|done].
    intros k. apply census_list_cells_dates. }
  exists (fresh (dom σ4)), (<[fresh (dom σ4) := CensusFrame (census_frame rows days)]> σ4).
  split_and!.
  - etrans; [apply Hσ3|]. etrans; [apply Hσ4|]. apply insert_subseteq, fresh_lookup.
  - apply lookup_insert_eq.
  - intros B k r σ' Hk.
    eapply runs_bind.
    { unfold py_copy. eapply runs_bind; [by apply runs_read|]. apply runs_alloc. }
    eapply runs_bind.
    { unfold py_set_admit_d. eapply runs_bind; [apply runs_read, lookup_insert_eq|].
      apply runs_write. }
    eapply runs_bind.
    { unfold py_set_discharge_d. eapply runs_bind; [apply runs_read, lookup_insert_eq|].
      apply runs_write. }
    eapply runs_bind.
    { unfold py_groups. eapply runs_bind; [apply runs_read, lookup_insert_eq|].
      apply Hloop. }
    eapply runs_bind; [|apply Hk].
    unfold py_concat. eapply runs_bind.
    { apply (runs_read_all ls ((λ k, census_list_cells k
               (group_cells rows (admit_d <$> rows) (discharge_d <$> rows) k) days)
               <$> group_keys rows)).
      apply Forall2_fmap_r, Hframes. }
    rewrite Hcf. apply runs_alloc.
Qed.

(** X20. Run on references to an admissions frame and a capacity frame, the
    function raises where the function on values raises, and otherwise
    returns a frame holding the points the function on values returns. *)
Theorem compute_py_refines (σ : gmap loc frame) (adm beds_ref : loc)
    (rows : list Encounter) (ad dd : option (list date_cell))
    (beds : list CapacityRecord) (date_start date_end : Z) :
  σ !! adm = Some (EncFrame rows ad dd) → σ !! beds_ref = Some (CapFrame beds) →
  ∃ r σ',
    runs (compute_daily_true_occupancy_py adm beds_ref date_start date_end) σ r σ' ∧
    match compute_daily_true_occupancy rows beds date_start date_end with
    | Ok points => ∃ out, r = Ok out ∧ (σ' !! out) ≫= frame_points = Some points
    | Raise e => r = Raise e
    end.
Proof.
  intros Hadm Hbeds. unfold compute_daily_true_occupancy_py.
  destruct rows as [|e rows0].
  { eexists _, _. split.
    - eapply runs_bind; [by apply runs_read|]. simpl. apply runs_alloc.
    - simpl. eexists. split; [done|]. by rewrite lookup_insert_eq. }
  destruct (runs_census_prefix σ adm (e :: rows0) ad dd (date_range date_start date_end) Hadm)
    as (census_l & σ5 & Hσ5 & Hcensus & Hprefix).
  assert (Hbeds5 : σ5 !! beds_ref = Some (CapFrame beds)) by (by eapply lookup_weaken).
  unfold compute_daily_true_occupancy.
  destruct (census_frame (e :: rows0) (date_range date_start date_end)) as [|c cs].
  - eexists _, _. split; [|reflexivity].
    eapply runs_bind; [by apply runs_read|]. simpl. apply Hprefix.
    apply runs_bind_raise. unfold py_merge.
    eapply runs_bind; [by apply runs_read|].
    eapply runs_bind; [by apply runs_read|]. done.
  - eexists _, _. split.
    + eapply runs_bind; [by apply runs_read|]. simpl. apply Hprefix.
      eapply runs_bind.
      { unfold py_merge. eapply runs_bind; [by apply runs_read|].
        eapply runs_bind; [by apply runs_read|]. apply runs_alloc. }
      eapply runs_bind.
      { unfold py_rename_inplace. eapply runs_bind; [apply runs_read, lookup_insert_eq|].
        cbv beta iota. rewrite decide_True by done. apply runs_write. }
      eapply runs_bind.
      { unfold py_set_staffed_beds. eapply runs_bind; [apply runs_read, lookup_insert_eq|].
        cbv beta iota. rewrite decide_True by done. apply runs_write. }
      eapply runs_bind.
      { unfold py_set_occ_pct. eapply runs_bind; [apply runs_read, lookup_insert_eq|].
        cbv beta iota. rewrite decide_True by done. apply runs_write. }
      apply runs_ret.
    + eexists. split; [done|]. rewrite lookup_insert_eq. apply frame_points_attach.
Qed.

(** * Further properties of the code *)

(** ** Windows *)

Lemma date_range_nil ds de : de < ds → date_range ds de = [].
Proof. intros H. unfold date_range. by replace (Z.to_nat (de - ds + 1)) with 0%nat by lia. Qed.

Lemma date_range_cons ds de : ds <= de → date_range ds de = ds :: date_range (ds + 1) de.
Proof.
  intros H. unfold date_range.
  replace (Z.to_nat (de - ds + 1)) with (S (Z.to_nat (de - (ds + 1) + 1))) by lia.
  simpl. f_equal; [lia|]. rewrite <- fmap_S_seq, <- list_fmap_compose.
  apply list_fmap_ext. intros _ i _. simpl. lia.
Qed.

(** Keeping the days between two bounds narrows the window to them. *)
Lemma filter_date_range lo hi ds de :
  filter (λ d, lo <= d <= hi) (date_range ds de) = date_range (Z.max ds lo) (Z.min de hi).
Proof.
  remember (Z.to_nat (de - ds + 1)) as n eqn:Hn. revert ds Hn.
  induction n as [|n IH]; intros ds Hn.
  - rewrite !date_range_nil by lia. done.
  - rewrite (date_range_cons ds de) by lia. rewrite filter_cons, (IH (ds + 1)) by lia.
    case_decide as Hd.
    + rewrite (date_range_cons (Z.max ds lo)) by lia.
      replace (Z.max ds lo) with ds by lia. f_equal. f_equal. lia.
    + destruct (decide (ds < lo)).
      * f_equal. lia.
      * rewrite !date_range_nil by lia. done.
Qed.

Lemma filter_bind {A B} (P : B → Prop) `{∀ y, Decision (P y)} (f : A → list B) (l : list A) :
  filter P (l ≫= f) = l ≫= (λ x, filter P (f x)).
Proof.
  induction l as [|x l IH]; [done|]. by rewrite !bind_cons, filter_app, IH.
Qed.

Lemma census_frame_filter_days (P : Z → Prop) `{∀ d, Decision (P d)} df days :
  census_frame df (filter P days) = filter (λ c, P (c_date c)) (census_frame df days).
Proof.
  unfold census_frame. rewrite filter_bind. apply list_bind_ext; [|done].
  intros k. unfold census_list. by rewrite filter_fmap.
Qed.

Lemma merge_row_row {A} (key_of : A → key) beds_ref (c : A) m :
  m ∈ merge_row key_of beds_ref c → m_row m = c.
Proof. by intros [? _]%elem_of_merge_row. Qed.

Lemma merge_left_filter {A} (key_of : A → key) (P : A → Prop) `{∀ x, Decision (P x)}
    (left : list A) beds_ref :
  merge_left key_of (filter P left) beds_ref
  = filter (λ m, P (m_row m)) (merge_left key_of left beds_ref).
Proof.
  unfold merge_left. rewrite filter_bind. induction left as [|c left IH]; [done|].
  rewrite filter_cons, (bind_cons _ c left), <- IH. case_decide as Hc.
  - rewrite bind_cons. f_equal. symmetry. apply (filter_all _ (merge_row key_of beds_ref c)).
    intros m Hm. by rewrite (merge_row_row _ _ _ _ Hm).
  - rewrite (filter_none _ (merge_row key_of beds_ref c)); [done|].
    intros m Hm. by rewrite (merge_row_row _ _ _ _ Hm).
Qed.

(** X1. The census of a day does not depend on the window asked for: the
    output for a sub-window is the output for the window, restricted to the
    days of the sub-window, rows in the same order. *)
Theorem window_restriction (adm : list Encounter) (beds_ref : list CapacityRecord)
    (date_start date_end sub_start sub_end : Z) :
  date_start <= sub_start → sub_start <= sub_end → sub_end <= date_end →
  ∃ out sub_out,
    compute_daily_true_occupancy adm beds_ref date_start date_end = Ok out ∧
    compute_daily_true_occupancy adm beds_ref sub_start sub_end = Ok sub_out ∧
    sub_out = filter (λ p, sub_start <= p_date p <= sub_end) out.
Proof.
  intros H1 H2 H3. eexists _, _.
  split; [apply compute_nonempty_window; lia|].
  split; [by apply compute_nonempty_window|].
  rewrite filter_fmap.
  rewrite (list_filter_iff _ (λ m : Merged CensusRow, sub_start <= c_date (m_row m) <= sub_end))
    by done.
  f_equal.
  replace (date_range sub_start sub_end)
    with (filter (λ d, sub_start <= d <= sub_end) (date_range date_start date_end))
    by (rewrite filter_date_range; f_equal; lia).
  rewrite census_frame_filter_days.
  rewrite (merge_left_filter census_key (λ c, sub_start <= c_date c <= sub_end)).
  by apply list_filter_iff.
Qed.

Lemma window_restriction_witness :
  ∃ out sub_out,
    compute_daily_true_occupancy [icu_stay; clinic_visit] [] 19720 19729 = Ok out ∧
    compute_daily_true_occupancy [icu_stay; clinic_visit] [] 19723 19724 = Ok sub_out ∧
    sub_out = filter (λ p, 19723 <= p_date p <= 19724) out.
Proof.
  apply (window_restriction [icu_stay; clinic_visit] [] 19720 19729 19723 19724); lia.
Defined.

(** ** Groups are computed on their own *)

Lemma elem_of_group_of k (df : list Encounter) (e : Encounter) :
  e ∈ group_of k df ↔ e ∈ df ∧ enc_key e = k.
Proof. unfold group_of. rewrite list_elem_of_filter, in_group_true. tauto. Qed.

Lemma group_of_idemp k (df : list Encounter) : group_of k (group_of k df) = group_of k df.
Proof.
  unfold group_of at 1. apply filter_all. intros e He.
  apply in_group_true. by apply elem_of_group_of in He as [_ ?].
Qed.

Lemma group_keys_group_of k (df : list Encounter) :
  k ∈ group_keys df → group_keys (group_of k df) = [k].
Proof.
  intros Hk. pose proof (NoDup_group_keys (group_of k df)) as Hnd.
  assert (Hall : ∀ x, x ∈ group_keys (group_of k df) → x = k).
  { intros x (e & He & <-)%elem_of_group_keys. by apply elem_of_group_of in He as [_ ?]. }
  assert (Hin : k ∈ group_keys (group_of k df)).
  { apply elem_of_group_keys in Hk as (e & He & Hke). apply elem_of_group_keys.
    exists e. split; [|done]. by apply elem_of_group_of. }
  destruct (group_keys (group_of k df)) as [|a [|b l]].
  - by apply not_elem_of_nil in Hin.
  - f_equal. apply Hall. left.
  - exfalso. apply NoDup_cons in Hnd as [Ha _]. apply Ha.
    rewrite (Hall a) by left. rewrite (Hall b) by (right; left). left.
Qed.

Lemma census_frame_group_of k (df : list Encounter) days :
  census_frame (group_of k df) days = filter (λ c, census_key c = k) (census_frame df days).
Proof.
  destruct (decide (k ∈ group_keys df)) as [Hk|Hk].
  - rewrite census_frame_group by done. unfold census_frame.
    rewrite group_keys_group_of by done. rewrite bind_cons.
    change ([] ≫= λ k0, census_list k0 (group_of k0 (group_of k df)) days) with (@nil CensusRow).
    by rewrite app_nil_r, group_of_idemp.
  - assert (group_of k df = []) as ->.
    { unfold group_of. apply filter_none. intros e He Hke. apply Hk.
      apply elem_of_group_keys. exists e. split; [done|]. by apply in_group_true. }
    symmetry. apply filter_none. intros c Hc Hkc.
    apply elem_of_census_frame in Hc as (k' & d & Hk' & _ & ->).
    unfold census_key in Hkc. simpl in Hkc. destruct k'. simpl in *. by subst.
Qed.

(** X2. Units do not influence each other: run on the encounters of one
    (hospital, unit) pair alone, the census engine returns exactly the rows
    the full run has for that pair, in the same order. *)
Theorem group_locality (adm : list Encounter) (beds_ref : list CapacityRecord)
    (date_start date_end : Z) (k : key) :
  date_start <= date_end →
  ∃ out,
    compute_daily_true_occupancy adm beds_ref date_start date_end = Ok out ∧
    compute_daily_true_occupancy (group_of k adm) beds_ref date_start date_end
    = Ok (filter (λ p, point_key p = k) out).
Proof.
  intros Hle. eexists. split; [by apply compute_nonempty_window|].
  rewrite compute_nonempty_window by done. f_equal.
  rewrite filter_fmap, census_frame_group_of.
  rewrite (merge_left_filter census_key (λ c, census_key c = k)). f_equal.
Qed.

Lemma group_locality_witness :
  ∃ out,
    compute_daily_true_occupancy [icu_stay; clinic_visit] [] 19723 19725 = Ok out ∧
    compute_daily_true_occupancy (group_of ("General", "ICU") [icu_stay; clinic_visit]) []
      19723 19725
    = Ok (filter (λ p, point_key p = ("General", "ICU")) out).
Proof.
  apply (group_locality [icu_stay; clinic_visit] [] 19723 19725 ("General", "ICU")). lia.
Defined.

(** ** When the call returns *)

(** X3. The call returns unless the collection is non-empty and the window
    is reversed; then the merge on the frame without columns raises
    [KeyError: 'hospital']. *)
Theorem compute_raises_iff_reversed_window (adm : list Encounter)
    (beds_ref : list CapacityRecord) (date_start date_end : Z) :
  (compute_daily_true_occupancy adm beds_ref date_start date_end = Raise (KeyError "hospital")
   ↔ adm ≠ [] ∧ date_end < date_start) ∧
  ((adm = [] ∨ date_start <= date_end) →
   ∃ out, compute_daily_true_occupancy adm beds_ref date_start date_end = Ok out).
Proof.
  split.
  - split.
    + intros Hraise. destruct adm as [|e adm]; [done|]. split; [done|].
      destruct (decide (date_end < date_start)) as [|Hge]; [done|].
      rewrite compute_nonempty_window in Hraise by lia. done.
    + intros [Hne Hrev]. unfold compute_daily_true_occupancy.
      destruct adm as [|e adm]; [done|]. rewrite date_range_nil by done.
      assert (census_frame (e :: adm) [] = []) as ->; [|done].
      unfold census_frame, census_list. induction (group_keys (e :: adm)); [done|].
      by rewrite bind_cons.
  - intros [->|Hle]; [by eexists|]. eexists. by apply compute_nonempty_window.
Qed.

(** ** Patient-days *)

Lemma present_on_dates d (e : Encounter) A B :
  admit_d e = Some A → discharge_d e = Some B →
  present_on d e = true ↔ A <= d <= B - 1.
Proof.
  intros Ha Hb. unfold present_on, present_cells. rewrite Ha, Hb. simpl.
  rewrite andb_true_iff, Z.leb_le, Z.ltb_lt. lia.
Qed.

(** The days of the window on which one encounter is counted. *)
Lemma present_days_count ds de (e : Encounter) :
  Z.of_nat (length (filter (λ d, present_on d e = true) (date_range ds de)))
  = stay_days_in_window ds de e.
Proof.
  unfold stay_days_in_window.
  destruct (admit_d e) as [A|] eqn:Ha; [destruct (discharge_d e) as [B|] eqn:Hb|].
  - rewrite (list_filter_iff _ (λ d, A <= d <= B - 1))
      by (intros d; by apply present_on_dates).
    rewrite filter_date_range. unfold date_range. rewrite length_fmap, length_seq. lia.
  - rewrite filter_none; [done|]. intros d _.
    unfold present_on, present_cells. rewrite Ha, Hb. simpl. by rewrite andb_false_r.
  - rewrite filter_none; [done|]. intros d _.
    unfold present_on, present_cells. rewrite Ha. done.
Qed.

Lemma sum_Z_cons x l : sum_Z (x :: l) = x + sum_Z l.
Proof. done. Qed.

Lemma sum_Z_indicator {A} (P : A → Prop) `{∀ x, Decision (P x)} (l : list A) :
  sum_Z ((λ x, if decide (P x) then 1 else 0) <$> l) = Z.of_nat (length (filter P l)).
Proof.
  induction l as [|x l IH]; [done|]. rewrite fmap_cons, filter_cons, sum_Z_cons, IH.
  case_decide; simpl; lia.
Qed.

Lemma sum_Z_add {A} (f g : A → Z) (l : list A) :
  sum_Z ((λ x, f x + g x) <$> l) = sum_Z (f <$> l) + sum_Z (g <$> l).
Proof.
  induction l as [|x l IH]; [done|]. rewrite !fmap_cons, !sum_Z_cons, IH. lia.
Qed.

Lemma census_count_cons (e : Encounter) g d :
  census_count (e :: g) d
  = (if decide (present_on d e = true) then 1 else 0) + census_count g d.
Proof.
  unfold census_count. rewrite filter_cons. case_decide; simpl; lia.
Qed.

(** Summed over the days, the census of a group is the sum of the days its
    encounters are counted. *)
Lemma census_sum_swap (g : list Encounter) ds de :
  sum_Z (census_count g <$> date_range ds de)
  = sum_Z (stay_days_in_window ds de <$> g).
Proof.
  induction g as [|e g IH].
  - induction (date_range ds de) as [|d l IH]; [done|].
    rewrite fmap_cons, sum_Z_cons, IH. done.
  - rewrite (list_fmap_ext _ (λ d, (if decide (present_on d e = true) then 1 else 0)
                                  + census_count g d) (date_range ds de))
      by (intros _ d _; apply census_count_cons).
    rewrite sum_Z_add, IH, (sum_Z_indicator (λ d, present_on d e = true)), present_days_count.
    by rewrite fmap_cons, sum_Z_cons.
Qed.

(** X4. Patient-days: over the rows of one (hospital, unit) pair the census
    adds up to the number of days of the window its encounters spend there,
    discharge days not counted and encounters with a NaT date counting for
    nothing.  The capacity reference has one record per pair at most. *)
Theorem census_adds_up_to_patient_days (adm : list Encounter)
    (beds_ref : list CapacityRecord) (date_start date_end : Z) (e0 : Encounter) :
  e0 ∈ adm → date_start <= date_end → capacity_unique beds_ref →
  ∃ out,
    compute_daily_true_occupancy adm beds_ref date_start date_end = Ok out ∧
    sum_Z (census <$> filter (λ p, point_key p = enc_key e0) out)
    = sum_Z (stay_days_in_window date_start date_end <$> group_of (enc_key e0) adm).
Proof.
  intros He Hle Hu. eexists. split; [by apply compute_unique|].
  rewrite filter_fmap.
  rewrite (list_filter_iff _ (λ c, census_key c = enc_key e0)) by done.
  rewrite census_frame_group by (apply elem_of_group_keys; by exists e0).
  unfold census_list. rewrite <- !list_fmap_compose.
  rewrite <- census_sum_swap. done.
Qed.

Lemma census_adds_up_to_patient_days_witness :
  ∃ out,
    compute_daily_true_occupancy [icu_stay; clinic_visit] [] 19720 19724 = Ok out ∧
    sum_Z (census <$> filter (λ p, point_key p = enc_key icu_stay) out)
    = sum_Z (stay_days_in_window 19720 19724
             <$> group_of (enc_key icu_stay) [icu_stay; clinic_visit]).
Proof.
  apply (census_adds_up_to_patient_days [icu_stay; clinic_visit] [] 19720 19724 icu_stay).
  - left.
  - lia.
  - unfold capacity_unique. simpl. apply NoDup_nil_2.
Defined.

(** ** Bounds *)

Lemma length_filter_le {A} (P : A → Prop) `{∀ x, Decision (P x)} (l : list A) :
  (length (filter P l) ≤ length l)%nat.
Proof. induction l as [|x l IH]; [done|]. rewrite filter_cons. case_decide; simpl; lia. Qed.

(** X5. A census cell is never negative and never more than the number of
    encounters of its group, which is at least 1; [occ_pct] is NaN or a
    finite number that is not negative, never an infinity; and with one
    capacity record per pair at most the output has one row per group and
    day. *)
Theorem output_bounds (adm : list Encounter) (beds_ref : list CapacityRecord)
    (date_start date_end : Z) (out : list DailyOccupancyPoint) :
  compute_daily_true_occupancy adm beds_ref date_start date_end = Ok out →
  (∀ p, p ∈ out →
     0 <= census p <= Z.of_nat (length (group_of (point_key p) adm)) ∧
     (1 <= length (group_of (point_key p) adm))%nat ∧
     (occ_pct p = NaN ∨ ∃ q, occ_pct p = Fin q ∧ (0 <= q)%Q)) ∧
  (capacity_unique beds_ref →
   length out = (length (group_keys adm) * length (date_range date_start date_end))%nat).
Proof.
  intros Hout. apply compute_Ok_inv in Hout as ->. split.
  - intros p Hp. apply elem_of_output in Hp as (Hk & _ & Hc & Hocc & _). split_and!.
    + rewrite Hc. unfold census_count. lia.
    + rewrite Hc. unfold census_count.
      pose proof (length_filter_le (λ e, present_on (p_date p) e = true)
                    (group_of (point_key p) adm)). lia.
    + apply elem_of_group_keys in Hk as (e & He & Hke).
      assert (Hin : e ∈ group_of (point_key p) adm) by (by apply elem_of_group_of).
      destruct (group_of (point_key p) adm); [by apply not_elem_of_nil in Hin|]. simpl. lia.
    + rewrite Hocc. unfold occ_pct_of, np_where.
      destruct (0 <? staffed_beds p) eqn:Hpos; [|by left]. right.
      apply Z.ltb_lt in Hpos. unfold F.div, F.of_int, F.qsgn. simpl.
      destruct (Z.sgn (staffed_beds p) =? 0) eqn:Hz; [apply Z.eqb_eq in Hz; lia|].
      simpl. eexists. split; [done|].
      assert (Hc0 : 0 <= census p) by (rewrite Hc; unfold census_count; lia).
      rewrite !Qred_correct.
      apply Qmult_le_0_compat; [|done].
      apply Qmult_le_0_compat.
      * unfold Qle. simpl. lia.
      * apply Qinv_le_0_compat. unfold Qle. simpl. lia.
  - intros Hu. rewrite merge_left_unique by done. rewrite !length_fmap.
    unfold census_frame. induction (group_keys adm) as [|k ks IH]; [done|].
    rewrite bind_cons, length_app, IH. unfold census_list. rewrite length_fmap. done.
Qed.

Lemma output_bounds_witness :
  (∀ p, p ∈ [ mkPoint "General" "ICU" 19723 1 2 (Fin 50);
              mkPoint "General" "ICU" 19724 1 2 (Fin 50);
              mkPoint "General" "ICU" 19725 0 2 (Fin 0) ] →
     0 <= census p <= Z.of_nat (length (group_of (point_key p) [icu_stay])) ∧
     (1 <= length (group_of (point_key p) [icu_stay]))%nat ∧
     (occ_pct p = NaN ∨ ∃ q, occ_pct p = Fin q ∧ (0 <= q)%Q)) ∧
  (capacity_unique [mkCapacity "General" "ICU" 2] →
   length [ mkPoint "General" "ICU" 19723 1 2 (Fin 50);
            mkPoint "General" "ICU" 19724 1 2 (Fin 50);
            mkPoint "General" "ICU" 19725 0 2 (Fin 0) ]
   = (length (group_keys [icu_stay]) * length (date_range 19723 19725))%nat).
Proof.
  apply (output_bounds [icu_stay] [mkCapacity "General" "ICU" 2] 19723 19725).
  vm_compute. reflexivity.
Defined.

(** ** Arrivals *)

Lemma length_filter_eq_NoDup {K} `{EqDecision K} (keys : list K) k0 :
  NoDup keys → k0 ∈ keys → length (filter (λ k, k = k0) keys) = 1%nat.
Proof.
  induction keys as [|k keys IH]; intros Hnd Hin; [by apply not_elem_of_nil in Hin|].
  apply NoDup_cons in Hnd as [Hk Hnd]. rewrite filter_cons. case_decide as Hkk.
  - subst k. rewrite filter_none; [done|]. by intros k Hk' ->.
  - apply IH; [done|]. apply elem_of_cons in Hin as [->|Hin]; [done|done].
Qed.

(** Group sizes add up to the number of rows that have a key. *)
Lemma group_sizes_add_up {A K} `{EqDecision K} (f : A → option K) (l : list A)
    (keys : list K) :
  NoDup keys → (∀ x k, x ∈ l → f x = Some k → k ∈ keys) →
  sum_Z ((λ k, Z.of_nat (length (filter (λ x, f x = Some k) l))) <$> keys)
  = Z.of_nat (length (filter (λ x, is_Some (f x)) l)).
Proof.
  intros Hnd. induction l as [|x l IH]; intros Hcover.
  - clear Hnd Hcover. induction keys as [|k keys IHk]; [done|].
    rewrite fmap_cons, sum_Z_cons, IHk. done.
  - assert (Hcover' : ∀ x k, x ∈ l → f x = Some k → k ∈ keys)
      by (intros y k Hy; apply Hcover; by right).
    specialize (IH Hcover'). destruct (f x) as [k0|] eqn:Hfx.
    + rewrite (filter_cons_True (λ x, is_Some (f x))) by (rewrite Hfx; eauto).
      rewrite (list_fmap_ext _ (λ k, (if decide (k = k0) then 1 else 0)
                 + Z.of_nat (length (filter (λ x, f x = Some k) l))) keys).
      * rewrite sum_Z_add, IH, (sum_Z_indicator (λ k, k = k0)).
        rewrite length_filter_eq_NoDup; [simpl; lia|done|].
        apply (Hcover x); [left|done].
      * intros _ k _. rewrite filter_cons. rewrite Hfx.
        destruct (decide (k = k0)) as [->|Hne].
        -- rewrite decide_True by done. simpl. lia.
        -- rewrite decide_False by congruence. lia.
    + rewrite (filter_cons_False (λ x, is_Some (f x))) by (rewrite Hfx; by intros [? ?]).
      rewrite <- IH. f_equal. apply list_fmap_ext. intros _ k _.
      rewrite filter_cons_False by (rewrite Hfx; done). done.
Qed.

Lemma NoDup_daily_arrival_keys adm :
  NoDup (merge_sort day_key_le (remove_dups (omap enc_day_key adm))).
Proof. rewrite merge_sort_Permutation. apply NoDup_remove_dups. Qed.

(** X6. The groupings lose no admission and count none twice: the
    [arrivals] of the daily-arrivals frame add up to the number of
    encounters with a valid [admit_ts], and so do the per-day counts of the
    admissions series; a row whose [admit_ts] is NaT is in neither. *)
Theorem arrivals_add_up (adm : list Encounter) :
  sum_Z (arrivals <$> daily_arrivals adm)
  = Z.of_nat (length (filter (λ e, is_Some (admit_ts e)) adm)) ∧
  sum_Z (snd <$> admissions_by_day adm)
  = Z.of_nat (length (filter (λ e, is_Some (admit_ts e)) adm)) ∧
  NoDup ((λ a, (arrival_key a, a_date a)) <$> daily_arrivals adm) ∧
  NoDup (fst <$> admissions_by_day adm).
Proof.
  assert (Hsome : ∀ e : Encounter, is_Some (admit_d e) ↔ is_Some (admit_ts e)).
  { intros e. unfold admit_d, dt_date. by rewrite fmap_is_Some. }
  split_and!.
  - unfold daily_arrivals. rewrite <- list_fmap_compose.
    rewrite <- (list_filter_iff (λ e, is_Some (enc_day_key e)) (λ e, is_Some (admit_ts e)) adm)
      by (intros e; unfold enc_day_key; rewrite fmap_is_Some; apply Hsome).
    apply (group_sizes_add_up enc_day_key adm); [apply NoDup_daily_arrival_keys|].
    intros e k He Hk. rewrite merge_sort_Permutation, elem_of_remove_dups, list_elem_of_omap.
    by exists e.
  - unfold admissions_by_day. rewrite <- list_fmap_compose.
    rewrite <- (list_filter_iff (λ e, is_Some (admit_d e)) (λ e, is_Some (admit_ts e)) adm)
      by apply Hsome.
    apply (group_sizes_add_up admit_d adm); [apply NoDup_admit_days|].
    intros e d He Hd. apply elem_of_admit_days. by exists e.
  - unfold daily_arrivals. rewrite <- list_fmap_compose.
    rewrite (list_fmap_ext _ id (merge_sort day_key_le (remove_dups (omap enc_day_key adm))))
      by (by intros _ [[h u] d] _).
    rewrite list_fmap_id. apply NoDup_daily_arrival_keys.
  - unfold admissions_by_day. rewrite <- list_fmap_compose.
    rewrite (list_fmap_ext _ id (admit_days adm)) by done.
    rewrite list_fmap_id. apply NoDup_admit_days.
Qed.

(** X7. The proxy ratio of a row is NaN exactly when no capacity record
    matches its pair; otherwise it is a finite number, at most 1.2 and never
    an infinity, whatever the bed count, and it is positive when the bed
    count is. *)
Theorem proxy_ratio_bounds (adm : list Encounter) (beds_ref : list CapacityRecord)
    (m : Merged ArrivalRow) (v : float64) :
  (m, v) ∈ occ_proxy adm beds_ref →
  (v = NaN ↔ m_baseline m = None) ∧
  (v = NaN ↔ ∀ b, b ∈ beds_ref → cap_key b ≠ arrival_key (m_row m)) ∧
  (∀ b, m_baseline m = Some b →
        ∃ q, v = Fin q ∧ (q <= 12 # 10)%Q ∧ (0 < b → (0 < q)%Q)).
Proof.
  unfold occ_proxy. intros (m' & [= <- ->] & Hm)%list_elem_of_fmap.
  apply elem_of_merge_left in Hm as [Ha Hb]. apply arrivals_positive in Ha.
  assert (Hval : ∀ b, m_baseline m = Some b →
            ∃ q, occ_proxy_of m = Fin q ∧ (q <= 12 # 10)%Q ∧ (0 < b → (0 < q)%Q)).
  { intros b Hbase. unfold occ_proxy_of. rewrite Hbase.
    unfold F.of_cell, F.of_int, F.div, F.qsgn. simpl.
    destruct (Z.sgn b =? 0) eqn:Hz.
    - destruct (Z.sgn (arrivals (m_row m)) =? 0) eqn:Hza; [apply Z.eqb_eq in Hza; lia|].
      destruct (Z.sgn (arrivals (m_row m)) <? 0) eqn:Hneg; [apply Z.ltb_lt in Hneg; lia|].
      simpl. exists (12 # 10). split_and!; [done|apply Qle_refl|done].
    - unfold F.clip_upper. simpl.
      destruct (Qle_bool _ (12 # 10)) eqn:Hle.
      + eexists. split_and!; [done|by apply Qle_bool_iff|].
        intros Hb0. rewrite Qred_correct. apply Qmult_lt_0_compat.
        * unfold Qlt. simpl. lia.
        * apply Qinv_lt_0_compat. unfold Qlt. simpl. lia.
      + exists (12 # 10). split_and!; [done|apply Qle_refl|done]. }
  split_and!.
  - split.
    + intros Hnan. destruct (m_baseline m) as [b|] eqn:Hbase; [|done].
      destruct (Hval b eq_refl) as (q & Hq & _). congruence.
    + apply occ_proxy_of_missing_beds.
  - split.
    + intros Hnan. destruct Hb as [[_ Hno]|(b & Hb & Hk & Hbase)]; [done|].
      destruct (Hval _ Hbase) as (q & Hq & _). congruence.
    + intros Hno. destruct Hb as [[Hbase _]|(b & Hb & Hk & _)].
      * by apply occ_proxy_of_missing_beds.
      * by apply Hno in Hb.
  - done.
Qed.

Lemma proxy_ratio_bounds_witness :
  (Fin (1 # 2) = NaN ↔ Some 2 = @None Z) ∧
  (Fin (1 # 2) = NaN ↔
   ∀ b, b ∈ [mkCapacity "General" "ICU" 2] → cap_key b ≠ ("General", "ICU")) ∧
  (∀ b, Some 2 = Some b → ∃ q, Fin (1 # 2) = Fin q ∧ (q <= 12 # 10)%Q ∧ (0 < b → (0 < q)%Q)).
Proof.
  apply (proxy_ratio_bounds [icu_stay] [mkCapacity "General" "ICU" 2]
           (mkMerged (mkArrival "General" "ICU" 19723 1) (Some 2)) (Fin (1 # 2))).
  vm_compute. left.
Defined.

(** ** Means that skip NaN *)

Lemma dropna_nil (l : list float64) : dropna l = [] ↔ ∀ x, x ∈ l → x = NaN.
Proof.
  unfold dropna. split.
  - intros Hnil x Hx. destruct (F.is_nan x) eqn:Hn; [by destruct x|].
    exfalso. by apply (filter_nil_not_elem_of _ _ x Hnil Hn).
  - intros Hall. apply filter_none. intros x Hx. by rewrite (Hall x Hx).
Qed.

Lemma sum_finite (l : list float64) :
  (∀ x, x ∈ l → ∃ q, x = Fin q) → ∃ s, foldr float_add (Fin 0) l = Fin s.
Proof.
  induction l as [|x l IH]; intros Hall; [by eexists|].
  destruct (Hall x) as [q ->]; [left|].
  destruct IH as [s Hs]; [intros y Hy; apply Hall; by right|].
  simpl. rewrite Hs. by eexists.
Qed.

Lemma sum_nonneg (l : list float64) :
  (∀ x, x ∈ l → ∃ q, x = Fin q ∧ (0 <= q)%Q) →
  ∃ s, foldr float_add (Fin 0) l = Fin s ∧ (0 <= s)%Q.
Proof.
  induction l as [|x l IH]; intros Hall; [by eexists|].
  destruct (Hall x) as (q & -> & Hq); [left|].
  destruct IH as (s & Hs & Hs0); [intros y Hy; apply Hall; by right|].
  simpl. rewrite Hs. eexists. split; [done|].
  rewrite Qred_correct. replace 0%Q with (0 + 0)%Q by done. by apply Qplus_le_compat.
Qed.

Lemma elem_of_dropna (l : list float64) x : x ∈ dropna l ↔ x ∈ l ∧ x ≠ NaN.
Proof.
  unfold dropna. rewrite list_elem_of_filter. split; intros [H1 H2]; split; try done.
  - by intros ->.
  - by destruct x.
Qed.

(** The mean of a column without infinities is NaN exactly when every cell
    is NaN. *)
Lemma mean_skipna_nan (l : list float64) :
  (∀ x, x ∈ l → finite_or_nan x) →
  (mean_skipna l = NaN ↔ ∀ x, x ∈ l → x = NaN).
Proof.
  intros Hfin. rewrite <- dropna_nil. unfold mean_skipna.
  destruct (sum_finite (dropna l)) as [s Hs].
  { intros x [Hx Hnan]%elem_of_dropna. destruct (Hfin x Hx) as [->|?]; done. }
  rewrite Hs. destruct (dropna l) as [|x l'] eqn:Hd.
  - injection Hs as <-. done.
  - split; [|done]. unfold F.div, F.of_int, F.qsgn. simpl. done.
Qed.

Lemma mean_skipna_nonneg (l : list float64) :
  (∀ x, x ∈ l → nonneg_or_nan x) → nonneg_or_nan (mean_skipna l).
Proof.
  intros Hnn. unfold mean_skipna.
  destruct (sum_nonneg (dropna l)) as (s & Hs & Hs0).
  { intros x [Hx Hnan]%elem_of_dropna. destruct (Hnn x Hx) as [->|?]; done. }
  rewrite Hs. destruct (dropna l) as [|x l'] eqn:Hd.
  - injection Hs as <-. by left.
  - right. unfold F.div, F.of_int, F.qsgn. simpl. eexists. split; [done|].
    rewrite Qred_correct. apply Qmult_le_0_compat; [done|].
    apply Qinv_le_0_compat. unfold Qle. simpl. lia.
Qed.

(** ** The occupancy KPI and the bottleneck flag *)

Lemma occ_pct_of_nonneg census_v staffed :
  0 <= census_v → nonneg_or_nan (occ_pct_of census_v staffed).
Proof.
  intros Hc. unfold occ_pct_of, np_where.
  destruct (0 <? staffed) eqn:Hpos; [|by left]. right.
  apply Z.ltb_lt in Hpos. unfold F.div, F.of_int, F.qsgn. simpl.
  destruct (Z.sgn staffed =? 0) eqn:Hz; [apply Z.eqb_eq in Hz; lia|].
  simpl. eexists. split; [done|]. rewrite !Qred_correct.
  apply Qmult_le_0_compat; [|done]. apply Qmult_le_0_compat.
  - unfold Qle. simpl. lia.
  - apply Qinv_le_0_compat. unfold Qle. simpl. lia.
Qed.

(** X8. The average true occupancy of an output is NaN exactly when the
    output has rows and none of them has staffed beds (no capacity record
    matches, or the bed counts are not positive); it is never negative; and
    the bottleneck warning does not fire unless some row has staffed beds. *)
Theorem bottleneck_needs_staffed_beds (adm : list Encounter)
    (beds_ref : list CapacityRecord) (date_start date_end : Z)
    (out : list DailyOccupancyPoint) :
  compute_daily_true_occupancy adm beds_ref date_start date_end = Ok out →
  (avg_true_occ_pct out = NaN ↔ out ≠ [] ∧ ∀ p, p ∈ out → staffed_beds p <= 0) ∧
  nonneg_or_nan (avg_true_occ_pct out) ∧
  (bottleneck (avg_true_occ_pct out) = true → ∃ p, p ∈ out ∧ 0 < staffed_beds p).
Proof.
  intros Hout. apply compute_Ok_inv in Hout.
  assert (Hrows : ∀ p, p ∈ out →
            occ_pct p = occ_pct_of (census p) (staffed_beds p) ∧ 0 <= census p).
  { intros p Hp. rewrite Hout in Hp. apply elem_of_output in Hp as (_ & _ & Hc & Hocc & _).
    split; [done|]. rewrite Hc. unfold census_count. lia. }
  clear Hout.
  assert (Hnn : ∀ x, x ∈ occ_pct <$> out → nonneg_or_nan x).
  { intros x (p & -> & Hp)%list_elem_of_fmap. destruct (Hrows p Hp) as [-> Hc].
    by apply occ_pct_of_nonneg. }
  assert (Hnan : avg_true_occ_pct out = NaN ↔ out ≠ [] ∧ ∀ p, p ∈ out → staffed_beds p <= 0).
  { unfold avg_true_occ_pct. destruct out as [|p0 out']; [split; [done|by intros [? _]]|].
    rewrite mean_skipna_nan.
    - split.
      + intros Hall. split; [done|]. intros p Hp. destruct (Hrows p Hp) as [Hocc _].
        apply (occ_pct_of_nan_guard (census p)). rewrite <- Hocc. apply Hall.
        apply list_elem_of_fmap. by exists p.
      + intros [_ Hall] x (p & -> & Hp)%list_elem_of_fmap. destruct (Hrows p Hp) as [-> _].
        apply occ_pct_of_nan_guard. by apply Hall.
    - intros x Hx. destruct (Hnn x Hx) as [->|(q & -> & _)]; [by left|right; by eexists]. }
  split_and!; [done| |].
  - unfold avg_true_occ_pct. destruct out as [|p0 out']; [right; by exists 0%Q|].
    by apply mean_skipna_nonneg.
  - intros Hflag. destruct out as [|p0 out'] eqn:Hout; [done|]. rewrite <- Hout in *.
    destruct (decide (Exists (λ p, 0 < staffed_beds p) out)) as [Hex|Hno];
      [by apply Exists_exists in Hex|].
    assert (Hall : avg_true_occ_pct out = NaN).
    { apply Hnan. split; [by rewrite Hout|]. intros p Hp.
      destruct (decide (staffed_beds p <= 0)); [done|]. exfalso. apply Hno.
      apply Exists_exists. exists p. split; [done|lia]. }
    by rewrite Hall in Hflag.
Qed.

Lemma bottleneck_needs_staffed_beds_witness :
  (avg_true_occ_pct [ mkPoint "General" "ICU" 19723 1 0 NaN ] = NaN ↔
   [ mkPoint "General" "ICU" 19723 1 0 NaN ] ≠ [] ∧
   ∀ p, p ∈ [ mkPoint "General" "ICU" 19723 1 0 NaN ] → staffed_beds p <= 0) ∧
  nonneg_or_nan (avg_true_occ_pct [ mkPoint "General" "ICU" 19723 1 0 NaN ]) ∧
  (bottleneck (avg_true_occ_pct [ mkPoint "General" "ICU" 19723 1 0 NaN ]) = true →
   ∃ p, p ∈ [ mkPoint "General" "ICU" 19723 1 0 NaN ] ∧ 0 < staffed_beds p).
Proof.
  apply (bottleneck_needs_staffed_beds [icu_stay] [] 19723 19723).
  vm_compute. reflexivity.
Defined.

(** ** Length of stay *)

Lemma los_hours_nan (e : Encounter) :
  los_hours e = NaN ↔ admit_ts e = None ∨ discharge_ts e = None.
Proof.
  unfold los_hours. destruct (discharge_ts e), (admit_ts e); split; try done; auto.
  intros [?|?]; done.
Qed.

Lemma los_hours_finite (e : Encounter) : finite_or_nan (los_hours e).
Proof.
  unfold los_hours. destruct (discharge_ts e), (admit_ts e); try (by left). right. by eexists.
Qed.

Lemma dropna_idemp (l : list float64) : dropna (dropna l) = dropna l.
Proof.
  unfold dropna at 1. apply filter_all. intros x [_ Hx]%elem_of_dropna. by destruct x.
Qed.

Lemma mean_skipna_dropna (l : list float64) : mean_skipna (dropna l) = mean_skipna l.
Proof. unfold mean_skipna. by rewrite dropna_idemp. Qed.

Lemma dropna_los_hours (adm : list Encounter) :
  dropna (los_hours <$> adm) = los_hours <$> complete_rows adm.
Proof.
  unfold dropna, complete_rows. rewrite filter_fmap. f_equal.
  apply list_filter_iff. intros e. unfold los_hours.
  destruct e as [? ? ? ? ? [a|] [d|] ?]; simpl.
  - split; [by eauto|done].
  - split; [done|]. intros [_ [? ?]]. done.
  - split; [done|]. intros [[? ?] _]. done.
  - split; [done|]. intros [[? ?] _]. done.
Qed.

(** X9. Average length of stay: rows with a NaT timestamp do not enter:
    when some row is complete the KPI is the KPI of the complete rows alone;
    for a non-empty set it is NaN exactly when no row is complete; and when
    no complete row is discharged before it is admitted, it is not
    negative. *)
Theorem avg_los_skips_incomplete_rows (adm : list Encounter) :
  adm ≠ [] →
  (avg_los adm = NaN ↔ complete_rows adm = []) ∧
  (complete_rows adm ≠ [] → avg_los adm = avg_los (complete_rows adm)) ∧
  ((∀ (e : Encounter) a d, e ∈ adm → admit_ts e = Some a → discharge_ts e = Some d → a <= d) →
   nonneg_or_nan (avg_los adm)).
Proof.
  intros Hne. unfold avg_los at 1 2 4. destruct adm as [|e0 adm0] eqn:Hadm; [done|].
  rewrite <- Hadm in *. clear Hne. split_and!.
  - rewrite mean_skipna_nan.
    + rewrite <- dropna_nil, dropna_los_hours. split; [apply fmap_nil_inv|by intros ->].
    + intros x (e & -> & _)%list_elem_of_fmap. apply los_hours_finite.
  - intros Hc. unfold avg_los. destruct (complete_rows adm) as [|c cs] eqn:Hcr; [done|].
    rewrite <- Hcr, <- dropna_los_hours. by rewrite mean_skipna_dropna.
  - intros Hord. apply mean_skipna_nonneg.
    intros x (e & -> & He)%list_elem_of_fmap. unfold los_hours.
    destruct (discharge_ts e) as [d|] eqn:Hd; [|by left].
    destruct (admit_ts e) as [a|] eqn:Ha; [|by left].
    right. eexists. split; [done|]. rewrite Qred_correct.
    apply Qmult_le_0_compat.
    + unfold Qle. simpl. specialize (Hord e a d He Ha Hd). lia.
    + apply Qinv_le_0_compat. done.
Qed.

Lemma avg_los_skips_incomplete_rows_witness :
  (avg_los [icu_stay; coerce_timestamps sample_to_datetime stored_garbled] = NaN
   ↔ complete_rows [icu_stay; coerce_timestamps sample_to_datetime stored_garbled] = []) ∧
  (complete_rows [icu_stay; coerce_timestamps sample_to_datetime stored_garbled] ≠ [] →
   avg_los [icu_stay; coerce_timestamps sample_to_datetime stored_garbled]
   = avg_los (complete_rows [icu_stay; coerce_timestamps sample_to_datetime stored_garbled])) ∧
  ((∀ (e : Encounter) a d,
      e ∈ [icu_stay; coerce_timestamps sample_to_datetime stored_garbled] →
      admit_ts e = Some a → discharge_ts e = Some d → a <= d) →
   nonneg_or_nan (avg_los [icu_stay; coerce_timestamps sample_to_datetime stored_garbled])).
Proof.
  apply (avg_los_skips_incomplete_rows
           [icu_stay; coerce_timestamps sample_to_datetime stored_garbled]).
  discriminate.
Defined.

Example avg_los_example :
  avg_los [icu_stay; coerce_timestamps sample_to_datetime stored_garbled] = Fin 47.
Proof. vm_compute. reflexivity. Qed.

(** ** Date bounds, select boxes and the page flow *)

Lemma foldr_min_spec d (ds : list Z) :
  foldr Z.min d ds ∈ d :: ds ∧ ∀ x, x ∈ d :: ds → foldr Z.min d ds <= x.
Proof.
  induction ds as [|y ds [IHin IHle]]; simpl.
  - split; [left|]. intros x ->%list_elem_of_singleton. lia.
  - split.
    + destruct (Z.min_spec y (foldr Z.min d ds)) as [[_ ->]|[_ ->]]; [right; left|].
      apply elem_of_cons in IHin as [->|?]; [left|right; by right].
    + intros x Hx. assert (Hcase : x = y ∨ x ∈ d :: ds).
      { apply elem_of_cons in Hx as [->|Hx]; [right; left|].
        apply elem_of_cons in Hx as [->|Hx]; [by left|right; by right]. }
      destruct Hcase as [->|Hx']; [lia|]. specialize (IHle x Hx'). lia.
Qed.

Lemma foldr_max_spec d (ds : list Z) :
  foldr Z.max d ds ∈ d :: ds ∧ ∀ x, x ∈ d :: ds → x <= foldr Z.max d ds.
Proof.
  induction ds as [|y ds [IHin IHle]]; simpl.
  - split; [left|]. intros x ->%list_elem_of_singleton. lia.
  - split.
    + destruct (Z.max_spec y (foldr Z.max d ds)) as [[_ ->]|[_ ->]]; [|right; left].
      apply elem_of_cons in IHin as [->|?]; [left|right; by right].
    + intros x Hx. assert (Hcase : x = y ∨ x ∈ d :: ds).
      { apply elem_of_cons in Hx as [->|Hx]; [right; left|].
        apply elem_of_cons in Hx as [->|Hx]; [by left|right; by right]. }
      destruct Hcase as [->|Hx']; [lia|]. specialize (IHle x Hx'). lia.
Qed.

Lemma filter_iff_elem {A} (P Q : A → Prop) `{∀ x, Decision (P x)} `{∀ x, Decision (Q x)}
    (l : list A) :
  (∀ x, x ∈ l → P x ↔ Q x) → filter P l = filter Q l.
Proof.
  induction l as [|x l IH]; intros Hiff; [done|].
  rewrite !filter_cons, IH by (intros y Hy; apply Hiff; by right).
  pose proof (Hiff x ltac:(left)). repeat case_decide; tauto || done.
Qed.

Section PageProperties.

Variable sqlite_date : option string → option Z.
Variable to_datetime : option string → datetime64.

(** The bounds, when there are any: admit dates of stored rows, the
    smallest and the largest. *)
Lemma get_date_bounds_Some (store : list StoredAdmission) lo hi :
  get_date_bounds sqlite_date store = Some (lo, hi) →
  lo <= hi ∧
  (∃ r : StoredAdmission, r ∈ store ∧ sqlite_date (admit_ts r) = Some lo) ∧
  (∃ r : StoredAdmission, r ∈ store ∧ sqlite_date (admit_ts r) = Some hi) ∧
  ∀ (r : StoredAdmission) d, r ∈ store → sqlite_date (admit_ts r) = Some d → lo <= d <= hi.
Proof.
  unfold get_date_bounds.
  destruct (omap (λ r : StoredAdmission, sqlite_date (admit_ts r)) store) as [|d ds] eqn:Hdays;
    [done|].
  assert (Helem : ∀ x, x ∈ d :: ds
            ↔ ∃ r : StoredAdmission, r ∈ store ∧ sqlite_date (admit_ts r) = Some x).
  { intros x. rewrite <- Hdays. apply list_elem_of_omap. }
  intros [= <- <-].
  destruct (foldr_min_spec d ds) as [Hmin_in Hmin], (foldr_max_spec d ds) as [Hmax_in Hmax].
  split_and!.
  - apply Hmin, Hmax_in.
  - by apply Helem.
  - by apply Helem.
  - intros r x Hr Hx. assert (Hin : x ∈ d :: ds) by (apply Helem; by exists r).
    split; [by apply Hmin|by apply Hmax].
Qed.

(** X10. Date bounds: [get_date_bounds] fails exactly when SQLite reads the
    admit date of no stored row (an empty table included); otherwise the
    two bounds are admit dates of stored rows, in order, and every readable
    admit date lies between them. *)
Theorem get_date_bounds_spec (store : list StoredAdmission) :
  (get_date_bounds sqlite_date store = None
   ↔ ∀ r : StoredAdmission, r ∈ store → sqlite_date (admit_ts r) = None) ∧
  ∀ lo hi, get_date_bounds sqlite_date store = Some (lo, hi) →
    lo <= hi ∧
    (∃ r : StoredAdmission, r ∈ store ∧ sqlite_date (admit_ts r) = Some lo) ∧
    (∃ r : StoredAdmission, r ∈ store ∧ sqlite_date (admit_ts r) = Some hi) ∧
    ∀ (r : StoredAdmission) d, r ∈ store → sqlite_date (admit_ts r) = Some d → lo <= d <= hi.
Proof.
  split; [|apply get_date_bounds_Some].
  unfold get_date_bounds.
  destruct (omap (λ r : StoredAdmission, sqlite_date (admit_ts r)) store) as [|d ds] eqn:Hdays.
  - split; [|done]. intros _ r Hr.
    destruct (sqlite_date (admit_ts r)) as [x|] eqn:Hx; [|done].
    assert (Hin : x ∈ omap (λ r : StoredAdmission, sqlite_date (admit_ts r)) store)
      by (apply list_elem_of_omap; by exists r).
    rewrite Hdays in Hin. by apply not_elem_of_nil in Hin.
  - split; [done|]. intros Hall.
    assert (Hd : d ∈ omap (λ r : StoredAdmission, sqlite_date (admit_ts r)) store)
      by (rewrite Hdays; left).
    apply list_elem_of_omap in Hd as (r & Hr & Hrd). rewrite (Hall r Hr) in Hrd. done.
Qed.

(** X11. The default view: with the range set to the bounds and both select
    boxes on "All", the query returns the stored rows whose admit date
    SQLite reads, all of them and in store order; the rows it does not read
    are left out without notice. *)
Theorem default_view_shows_readable_rows (store : list StoredAdmission) (lo hi : Z) :
  get_date_bounds sqlite_date store = Some (lo, hi) →
  load_admissions sqlite_date to_datetime store (Some lo) (Some hi) (Some "All") (Some "All")
  = coerce_timestamps to_datetime
    <$> filter (λ r : StoredAdmission, is_Some (sqlite_date (admit_ts r))) store.
Proof.
  intros Hb. destruct (get_date_bounds_Some store lo hi Hb) as (_ & _ & _ & Hall).
  unfold load_admissions. f_equal. apply filter_iff_elem. intros r Hr.
  rewrite (sql_where_passes_filters sqlite_date to_datetime). unfold passes_filters, within, matches_param.
  destruct (sqlite_date (admit_ts r)) as [d|] eqn:Hd.
  - specialize (Hall r d Hr Hd). split; [by eauto|]. intros _.
    split_and!; [lia|lia|by left|by left].
  - split; [by intros [[] _]|by intros [? ?]].
Qed.

(** X12. The select boxes: the listed hospitals are the hospitals of the
    stored rows, each once and in sorted order, and so the units; choosing a
    listed hospital other than "All", with no other filter, returns exactly
    the rows of that hospital, of which there is at least one. *)
Theorem select_box_options (store : list StoredAdmission) :
  (∀ h, h ∈ (get_distinct_values store).1
        ↔ ∃ r : StoredAdmission, r ∈ store ∧ hospital r = h) ∧
  (∀ u, u ∈ (get_distinct_values store).2
        ↔ ∃ r : StoredAdmission, r ∈ store ∧ unit_id r = u) ∧
  NoDup (get_distinct_values store).1 ∧ Sorted String.le (get_distinct_values store).1 ∧
  NoDup (get_distinct_values store).2 ∧ Sorted String.le (get_distinct_values store).2 ∧
  ∀ h, h ∈ (get_distinct_values store).1 → h ≠ "All" →
    load_admissions sqlite_date to_datetime store None None (Some h) (Some "All")
    = coerce_timestamps to_datetime <$> filter (λ r : StoredAdmission, hospital r = h) store ∧
    load_admissions sqlite_date to_datetime store None None (Some h) (Some "All") ≠ [].
Proof.
  assert (Hh : ∀ h, h ∈ (get_distinct_values store).1
                    ↔ ∃ r : StoredAdmission, r ∈ store ∧ hospital r = h).
  { intros h. simpl. rewrite merge_sort_Permutation, elem_of_remove_dups, list_elem_of_fmap.
    split; [intros (r & -> & Hr)|intros (r & Hr & <-)]; by exists r. }
  split_and!; try done.
  - intros u. simpl. rewrite merge_sort_Permutation, elem_of_remove_dups, list_elem_of_fmap.
    split; [intros (r & -> & Hr)|intros (r & Hr & <-)]; by exists r.
  - simpl. rewrite merge_sort_Permutation. apply NoDup_remove_dups.
  - simpl. apply Sorted_merge_sort. apply _.
  - simpl. rewrite merge_sort_Permutation. apply NoDup_remove_dups.
  - simpl. apply Sorted_merge_sort. apply _.
  - intros h Hin Hne.
    assert (Heq : load_admissions sqlite_date to_datetime store None None (Some h) (Some "All")
                  = coerce_timestamps to_datetime
                    <$> filter (λ r : StoredAdmission, hospital r = h) store).
    { unfold load_admissions. f_equal. apply list_filter_iff. intros r.
      rewrite (sql_where_passes_filters sqlite_date to_datetime). unfold passes_filters, within, matches_param.
      split; [intros (_ & _ & [?|?] & _); done|intros ->; auto]. }
    split; [done|]. rewrite Heq. apply Hh in Hin as (r & Hr & Hrh).
    intros Hnil%fmap_nil_inv.
    by apply (filter_nil_not_elem_of _ _ r Hnil Hrh).
Qed.


End PageProperties.

Lemma default_view_shows_readable_rows_witness :
  load_admissions sample_sqlite_date sample_to_datetime [stored_icu_stay; stored_unreadable]
    (Some 19723) (Some 19723) (Some "All") (Some "All")
  = coerce_timestamps sample_to_datetime
    <$> filter (λ r : StoredAdmission, is_Some (sample_sqlite_date (admit_ts r)))
          [stored_icu_stay; stored_unreadable].
Proof.
  apply (default_view_shows_readable_rows sample_sqlite_date sample_to_datetime
           [stored_icu_stay; stored_unreadable] 19723 19723).
  vm_compute. reflexivity.
Defined.


Section PageFlow.

Variable sqlite_date : option string → option Z.
Variable to_datetime : option string → datetime64.

(** X14. The page flow: the page shows the "no encounters" note, and
    computes nothing, exactly when no stored row passes the filters;
    otherwise, for a range in order, the census engine returns: the
    [KeyError] of a reversed window cannot be reached from the page. *)
Theorem page_true_occ_flow (store : list StoredAdmission) (beds_ref : list CapacityRecord)
    (range_start range_end : Z) (hospital_sel unit_sel : string) :
  range_start <= range_end →
  (page_true_occ sqlite_date to_datetime store beds_ref range_start range_end
     hospital_sel unit_sel = None
   ↔ ∀ r : StoredAdmission, r ∈ store →
       ¬ passes_filters sqlite_date (Some range_start) (Some range_end)
           (Some hospital_sel) (Some unit_sel) r) ∧
  (page_true_occ sqlite_date to_datetime store beds_ref range_start range_end
     hospital_sel unit_sel = None ∨
   ∃ out, out ≠ [] ∧
     page_true_occ sqlite_date to_datetime store beds_ref range_start range_end
       hospital_sel unit_sel = Some (Ok out)).
Proof.
  intros Hle. unfold page_true_occ.
  set (adm := load_admissions sqlite_date to_datetime store (Some range_start)
                (Some range_end) (Some hospital_sel) (Some unit_sel)).
  assert (Hempty : adm = [] ↔ ∀ r : StoredAdmission, r ∈ store →
            ¬ passes_filters sqlite_date (Some range_start) (Some range_end)
                (Some hospital_sel) (Some unit_sel) r).
  { unfold adm, load_admissions. split.
    - intros Hnil%fmap_nil_inv r Hr Hp.
      apply (filter_nil_not_elem_of _ _ r Hnil); [|done].
      by apply (sql_where_passes_filters sqlite_date to_datetime).
    - intros Hall. rewrite filter_none; [done|]. intros r Hr Hw. apply (Hall r Hr).
      by apply (sql_where_passes_filters sqlite_date to_datetime). }
  case_decide as Hlen.
  - split; [|by left]. split; [intros _|done]. apply Hempty. by destruct adm.
  - split.
    + split; [done|]. intros Hall. apply Hempty in Hall. by rewrite Hall in Hlen.
    + right. rewrite compute_nonempty_window by done. eexists. split; [|done].
      intros Hnil%fmap_nil_inv. destruct adm as [|e adm']; [done|].
      assert (Hcf : census_frame (e :: adm') (date_range range_start range_end) ≠ [])
        by (apply census_frame_nonempty; [done|by apply date_range_nonempty]).
      by apply (merge_left_nonempty census_key _ beds_ref) in Hcf.
Qed.

(** X15. Patients admitted before the range are not counted: a stored row
    whose admit date lies outside the range asked for, or is not read by
    SQLite, never reaches the census engine, so the page shows the same
    occupancy with and without it, on whichever days it is in the unit. *)
Theorem page_ignores_admissions_outside_range (store_l store_r : list StoredAdmission)
    (r : StoredAdmission) (beds_ref : list CapacityRecord)
    (range_start range_end : Z) (hospital_sel unit_sel : string) :
  (∀ a, sqlite_date (admit_ts r) = Some a → a < range_start ∨ range_end < a) →
  page_true_occ sqlite_date to_datetime (store_l ++ r :: store_r) beds_ref
    range_start range_end hospital_sel unit_sel
  = page_true_occ sqlite_date to_datetime (store_l ++ store_r) beds_ref
      range_start range_end hospital_sel unit_sel.
Proof.
  intros Hout. unfold page_true_occ, load_admissions.
  rewrite !filter_app, filter_cons_False; [done|].
  rewrite (sql_where_passes_filters sqlite_date to_datetime).
  unfold passes_filters, within. intros (Hfrom & Hto & _).
  destruct (sqlite_date (admit_ts r)) as [a|]; [|done].
  destruct (Hout a eq_refl); lia.
Qed.

End PageFlow.

Lemma page_true_occ_flow_witness :
  (page_true_occ sample_sqlite_date sample_to_datetime [stored_icu_stay; stored_garbled] []
     19723 19725 "All" "All" = None
   ↔ ∀ r : StoredAdmission, r ∈ [stored_icu_stay; stored_garbled] →
       ¬ passes_filters sample_sqlite_date (Some 19723) (Some 19725)
           (Some "All") (Some "All") r) ∧
  (page_true_occ sample_sqlite_date sample_to_datetime [stored_icu_stay; stored_garbled] []
     19723 19725 "All" "All" = None ∨
   ∃ out, out ≠ [] ∧
     page_true_occ sample_sqlite_date sample_to_datetime [stored_icu_stay; stored_garbled] []
       19723 19725 "All" "All" = Some (Ok out)).
Proof.
  apply (page_true_occ_flow sample_sqlite_date sample_to_datetime
           [stored_icu_stay; stored_garbled] [] 19723 19725 "All" "All").
  lia.
Defined.

Lemma page_ignores_admissions_outside_range_witness :
  page_true_occ sample_sqlite_date sample_to_datetime ([] ++ stored_icu_stay :: []) []
    19724 19725 "All" "All"
  = page_true_occ sample_sqlite_date sample_to_datetime ([] ++ []) [] 19724 19725 "All" "All".
Proof.
  apply (page_ignores_admissions_outside_range sample_sqlite_date sample_to_datetime
           [] [] stored_icu_stay [] 19724 19725 "All" "All").
  intros a Ha. vm_compute in Ha. injection Ha as <-. lia.
Defined.

(** The stay of the example runs over 2024-01-02, and the page asked for
    that day and the next shows no data at all. *)
Example patient_present_but_not_counted :
  present_on 19724 (coerce_timestamps sample_to_datetime stored_icu_stay) = true ∧
  page_true_occ sample_sqlite_date sample_to_datetime [stored_icu_stay] [] 19724 19725
    "All" "All" = None.
Proof. split; vm_compute; reflexivity. Qed.

(** ** The bootstrap *)

Section BootstrapProperties.

Variables Schema Csv Db : Type.
Variable empty_db : Db.
Variable executescript : Schema → Db → Db * bool.
Variable to_sql : string → Csv → Db → Db * bool.

Abbreviation ensure := (ensure_db_exists Schema Csv Db empty_db executescript to_sql).
Abbreviation make := (make_sqlite Schema Csv Db empty_db executescript to_sql).
Abbreviation load := (load_tables Csv Db to_sql).
Abbreviation load_unguarded := (load_tables_unguarded Csv Db to_sql).

Lemma load_tables_app dir names1 names2 db :
  load dir (names1 ++ names2) db
  = match load dir names1 db with
    | (db', Returned) => load dir names2 db'
    | r => r
    end.
Proof.
  revert db. induction names1 as [|name names1 IH]; intros db; [done|].
  simpl. destruct (dir !! name) as [csv|]; [|done].
  destruct (to_sql name csv db) as [db' []]; [apply IH|done].
Qed.

Lemma load_tables_all_present dir names db :
  (∀ name, name ∈ names → is_Some (dir !! name)) →
  load dir names db = load_unguarded dir names db.
Proof.
  revert db. induction names as [|name names IH]; intros db Hall; [done|].
  simpl. destruct (Hall name) as [csv ->]; [left|].
  destruct (to_sql name csv db) as [db' []]; [|done].
  apply IH. intros n Hn. apply Hall. by right.
Qed.

(** X16. A bootstrap is never retried: once schema.sql and data/ are there
    the call leaves a database file behind however it ends (returned,
    stopped for a missing CSV, raised), and a call that finds a database
    file returns at once and changes nothing; so calling twice leaves what
    calling once leaves.  When schema.sql or data/ is missing nothing is
    created. *)
Theorem ensure_db_exists_never_retried (fs : FileSystem Schema Csv Db) :
  (ensure (ensure fs).1).1 = (ensure fs).1 ∧
  (is_Some (db_file (ensure fs).1) → ensure (ensure fs).1 = ((ensure fs).1, Returned)) ∧
  (is_Some (schema_file fs) → is_Some (data_dir fs) → is_Some (db_file (ensure fs).1)) ∧
  (db_file fs = None → schema_file fs = None → ensure fs = (fs, Stopped NoSchema)) ∧
  (db_file fs = None → is_Some (schema_file fs) → data_dir fs = None →
   ensure fs = (fs, Stopped NoDataDir)).
Proof.
  assert (Hdone : ∀ fs' : FileSystem Schema Csv Db,
            is_Some (db_file fs') → ensure fs' = (fs', Returned)).
  { intros fs' [db Hdb]. unfold ensure_db_exists. by rewrite Hdb. }
  assert (Hcases : (ensure fs).1 = fs ∨ is_Some (db_file (ensure fs).1)).
  { unfold ensure_db_exists. destruct (db_file fs) as [db|] eqn:Hdb; [by left|].
    destruct (schema_file fs) as [script|]; [|by left].
    destruct (data_dir fs) as [dir|]; [|by left].
    destruct (executescript script empty_db) as [db1 []]; [|right; by eexists].
    destruct (load dir TABLES db1) as [db2 out]. right. by eexists. }
  split_and!.
  - destruct Hcases as [Hsame|Hsome]; [by rewrite Hsame|]. by rewrite Hdone.
  - apply Hdone.
  - intros [script Hs] [dir Hd]. destruct Hcases as [Hsame|Hsome]; [|done].
    revert Hsame. unfold ensure_db_exists.
    destruct (db_file fs) as [db|] eqn:Hdb; [intros _; simpl; rewrite Hdb; by eexists|].
    rewrite Hs, Hd. destruct (executescript script empty_db) as [db1 []].
    + destruct (load dir TABLES db1) as [db2 out]. intros _. by eexists.
    + intros _. by eexists.
  - intros Hdb Hs. unfold ensure_db_exists. by rewrite Hdb, Hs.
  - intros Hdb [script Hs] Hd. unfold ensure_db_exists. by rewrite Hdb, Hs, Hd.
Qed.

(** X17. A missing CSV: when the first of the five files that is not there
    is [name], the tables before it are loaded, the script stops on it, the
    tables after it are never loaded, and the next call, finding the
    database file, returns without loading them either. *)
Theorem ensure_db_exists_missing_csv (fs : FileSystem Schema Csv Db) (script : Schema)
    (dir : gmap string Csv) (db1 db2 : Db) (before rest : list string) (name : string) :
  db_file fs = None → schema_file fs = Some script → data_dir fs = Some dir →
  executescript script empty_db = (db1, true) →
  TABLES = (before ++ name :: rest)%list →
  load dir before db1 = (db2, Returned) →
  dir !! name = None →
  ensure fs = (with_db Schema Csv Db fs db2, Stopped (MissingCsv name)) ∧
  ensure (with_db Schema Csv Db fs db2) = (with_db Schema Csv Db fs db2, Returned).
Proof.
  intros Hdb Hs Hd Hscript Htables Hbefore Hmissing. split.
  - unfold ensure_db_exists. rewrite Hdb, Hs, Hd, Hscript, Htables.
    rewrite load_tables_app, Hbefore. simpl. by rewrite Hmissing.
  - done.
Qed.

(** X18. The two bootstraps: on a machine without database file where
    schema.sql and the five CSV files are there, make_sqlite.py and
    [ensure_db_exists] leave the same files and end the same way; and
    make_sqlite.py always leaves a database file, after which
    [ensure_db_exists] returns at once whatever make_sqlite.py did. *)
Theorem make_sqlite_agrees_with_ensure_db_exists (fs : FileSystem Schema Csv Db)
    (dir : gmap string Csv) :
  (db_file fs = None → is_Some (schema_file fs) → data_dir fs = Some dir →
   (∀ name, name ∈ TABLES → is_Some (dir !! name)) →
   make fs = ensure fs) ∧
  ensure (make fs).1 = ((make fs).1, Returned).
Proof.
  split.
  - intros Hdb [script Hs] Hd Hall. unfold make_sqlite, ensure_db_exists.
    rewrite Hdb, Hs, Hd. change (default empty_db None) with empty_db.
    destruct (executescript script empty_db) as [db1 []]; [|done].
    by rewrite load_tables_all_present.
  - unfold make_sqlite. destruct (schema_file fs) as [script|]; [|done].
    destruct (executescript script (default empty_db (db_file fs))) as [db1 []]; [|done].
    destruct (data_dir fs) as [d|]; [|done].
    by destruct (load_unguarded d TABLES db1).
Qed.

End BootstrapProperties.

Lemma ensure_db_exists_missing_csv_witness :
  ensure_db_exists unit (list Z) (list (string * list Z)) [] sample_executescript sample_to_sql
    (mkFS None (Some ()) (Some sample_dir_no_staff))
  = (with_db unit (list Z) (list (string * list Z))
       (mkFS None (Some ()) (Some sample_dir_no_staff))
       [("patients", [1; 2]); ("units", [3]); ("bed_capacity", [4])],
     Stopped (MissingCsv "staff")) ∧
  ensure_db_exists unit (list Z) (list (string * list Z)) [] sample_executescript sample_to_sql
    (with_db unit (list Z) (list (string * list Z))
       (mkFS None (Some ()) (Some sample_dir_no_staff))
       [("patients", [1; 2]); ("units", [3]); ("bed_capacity", [4])])
  = (with_db unit (list Z) (list (string * list Z))
       (mkFS None (Some ()) (Some sample_dir_no_staff))
       [("patients", [1; 2]); ("units", [3]); ("bed_capacity", [4])],
     Returned).
Proof.
  apply (ensure_db_exists_missing_csv unit (list Z) (list (string * list Z)) []
           sample_executescript sample_to_sql
           (mkFS None (Some ()) (Some sample_dir_no_staff)) () sample_dir_no_staff
           [] [("patients", [1; 2]); ("units", [3]); ("bed_capacity", [4])]
           ["patients"; "units"; "bed_capacity"] ["admissions"] "staff").
  - reflexivity.
  - reflexivity.
  - reflexivity.
  - reflexivity.
  - reflexivity.
  - vm_compute. reflexivity.
  - vm_compute. reflexivity.
Defined.

(** With every file there the loads run in the order of the code. *)
Example ensure_db_exists_full :
  ensure_db_exists unit (list Z) (list (string * list Z)) [] sample_executescript sample_to_sql
    (mkFS None (Some ()) (Some sample_dir_full))
  = (mkFS (Some [("patients", [1; 2]); ("units", [3]); ("bed_capacity", [4]);
                 ("staff", [7]); ("admissions", [5; 6])])
       (Some ()) (Some sample_dir_full),
     Returned).
Proof. vm_compute. reflexivity. Qed.

(** ** The daily chart *)

Lemma Sorted_date_range ds de : Sorted Z.le (date_range ds de).
Proof.
  remember (Z.to_nat (de - ds + 1)) as n eqn:Hn. revert ds Hn.
  induction n as [|n IH]; intros ds Hn.
  - rewrite date_range_nil by lia. constructor.
  - rewrite date_range_cons by lia. constructor; [apply IH; lia|].
    destruct (decide (ds + 1 <= de)).
    + rewrite date_range_cons by lia. constructor. lia.
    + rewrite date_range_nil by lia. constructor.
Qed.

(** X19. The daily chart has one point per day of the window, in order,
    whatever the number of groups; the point of a day is NaN exactly when
    no row of that day has staffed beds. *)
Theorem daily_chart_one_point_per_day (adm : list Encounter)
    (beds_ref : list CapacityRecord) (date_start date_end : Z)
    (out : list DailyOccupancyPoint) :
  compute_daily_true_occupancy adm beds_ref date_start date_end = Ok out → adm ≠ [] →
  fst <$> true_daily out = date_range date_start date_end ∧
  ∀ d v, (d, v) ∈ true_daily out →
    (v = NaN ↔ ∀ p, p ∈ out → p_date p = d → staffed_beds p <= 0).
Proof.
  intros Hout Hne. apply compute_Ok_inv in Hout. split.
  - unfold true_daily. rewrite <- list_fmap_compose.
    rewrite (list_fmap_ext _ id (merge_sort Z.le (remove_dups (p_date <$> out)))) by done.
    rewrite list_fmap_id. apply (Sorted_unique Z.le).
    + apply Sorted_merge_sort. apply _.
    + apply Sorted_date_range.
    + rewrite merge_sort_Permutation. apply NoDup_Permutation.
      * apply NoDup_remove_dups.
      * apply NoDup_date_range.
      * intros d. rewrite elem_of_remove_dups, list_elem_of_fmap. split.
        -- intros (p & -> & Hp). rewrite Hout in Hp.
           by apply elem_of_output in Hp as (_ & Hd & _).
        -- intros Hd. destruct adm as [|e adm']; [done|].
           destruct (output_covers (e :: adm') beds_ref (date_range date_start date_end) e d)
             as (p & Hp & _ & Hpd); [left|done|].
           exists p. split; [done|]. by rewrite Hout.
  - intros d v (d' & [= <- ->] & _)%list_elem_of_fmap.
    assert (Hrows : ∀ p, p ∈ out →
              occ_pct p = occ_pct_of (census p) (staffed_beds p) ∧ 0 <= census p).
    { intros p Hp. rewrite Hout in Hp. apply elem_of_output in Hp as (_ & _ & Hc & Hocc & _).
      split; [done|]. rewrite Hc. unfold census_count. lia. }
    rewrite mean_skipna_nan.
    + split.
      * intros Hall p Hp Hd. destruct (Hrows p Hp) as [Hocc _].
        apply (occ_pct_of_nan_guard (census p)). rewrite <- Hocc. apply Hall.
        apply list_elem_of_fmap. exists p. split; [done|]. by apply list_elem_of_filter.
      * intros Hall x (p & -> & [Hd Hp]%list_elem_of_filter)%list_elem_of_fmap.
        destruct (Hrows p Hp) as [-> _]. apply occ_pct_of_nan_guard. by apply Hall.
    + intros x (p & -> & [_ Hp]%list_elem_of_filter)%list_elem_of_fmap.
      destruct (Hrows p Hp) as [-> Hc].
      destruct (occ_pct_of_nonneg (census p) (staffed_beds p) Hc) as [->|(q & -> & _)];
        [by left|right; by eexists].
Qed.

Lemma daily_chart_one_point_per_day_witness :
  fst <$> true_daily [ mkPoint "General" "ICU" 19723 1 2 (Fin 50);
                       mkPoint "General" "ICU" 19724 1 2 (Fin 50);
                       mkPoint "General" "ICU" 19725 0 2 (Fin 0) ]
  = date_range 19723 19725 ∧
  ∀ d v, (d, v) ∈ true_daily [ mkPoint "General" "ICU" 19723 1 2 (Fin 50);
                               mkPoint "General" "ICU" 19724 1 2 (Fin 50);
                               mkPoint "General" "ICU" 19725 0 2 (Fin 0) ] →
    (v = NaN ↔ ∀ p, p ∈ [ mkPoint "General" "ICU" 19723 1 2 (Fin 50);
                          mkPoint "General" "ICU" 19724 1 2 (Fin 50);
                          mkPoint "General" "ICU" 19725 0 2 (Fin 0) ] →
               p_date p = d → staffed_beds p <= 0).
Proof.
  apply (daily_chart_one_point_per_day [icu_stay] [mkCapacity "General" "ICU" 2] 19723 19725).
  - vm_compute. reflexivity.
  - discriminate.
Defined.

(** ** The heap model on the sample heap *)

Lemma compute_py_refines_witness :
  ∃ r σ',
    runs (compute_daily_true_occupancy_py 1%positive 2%positive 19723 19725) sample_heap r σ' ∧
    match compute_daily_true_occupancy [icu_stay] [mkCapacity "General" "ICU" 2] 19723 19725 with
    | Ok points => ∃ out, r = Ok out ∧ (σ' !! out) ≫= frame_points = Some points
    | Raise e => r = Raise e
    end.
Proof.
  apply (compute_py_refines sample_heap 1%positive 2%positive [icu_stay] None None
           [mkCapacity "General" "ICU" 2] 19723 19725).
  - vm_compute. reflexivity.
  - vm_compute. reflexivity.
Defined.
